(** * The [prompted] frontend entry point

    A shallow embedding of [frontend/apps/prompted/src/main.tsx]: the
    React bootstrap file that composes [Header] and [Counter] from the
    shared UI package into a static tree and mounts it on the element
    with identifier [app].

    The file itself is fifteen lines long; everything it calls lives in
    its environment: the DOM ([document.getElementById]), React DOM 19
    ([createRoot], [root.render]; the application depends on
    [react-dom ^19.2.0]) and the workspace package [@repo/ui] ([Header],
    [Counter]).  The DOM and React DOM are modelled after their behaviour,
    for trees of ordinary elements; the two components are parameters. *)

From Stdlib Require Import Ascii String.
From stdpp Require Import base option strings list gmap.

Set Default Proof Using "Type".
#[local] Set Warnings "-register-all".

(* ================================================================== *)
(** ** The host document *)
(* ================================================================== *)

Module DOM.

(** A node of the document tree: an element with its attributes and
    child nodes, or a text node. *)
Inductive Node : Type :=
| Element (tagName : string) (attributes : gmap string string)
          (childNodes : list Node)
| Text (data : string).

(** JavaScript holds a reference to a node; here a node is referred to
    by the child indices that lead to it from the document element.  The
    reference stays valid as long as nothing above or before the node
    is restructured, which is all the entry point ever does. *)
Definition Path := list nat.

(** The first hit of [f] among the siblings [l], numbered from [i]. *)
Fixpoint firstIn (f : Node -> option Path) (l : list Node) (i : nat)
  : option Path :=
  match l with
  | [] => None
  | k :: l' =>
      match f k with
      | Some p => Some (i :: p)
      | None => firstIn f l' (S i)
      end
  end.

(** [document.getElementById(id)]: the first element, in tree order,
    whose [id] attribute is [id]; [None] is JavaScript's [null]. *)
Fixpoint getElementById (id : string) (n : Node) : option Path :=
  match n with
  | Text _ => None
  | Element _ attrs kids =>
      if decide (attrs !! "id" = Some id) then Some []
      else firstIn (getElementById id) kids 0
  end.

Fixpoint nodeAt (p : Path) (n : Node) : option Node :=
  match p with
  | [] => Some n
  | i :: p' =>
      match n with
      | Element _ _ kids => kids !! i ≫= nodeAt p'
      | Text _ => None
      end
  end.

Definition isElement (n : Node) : bool :=
  match n with Element _ _ _ => true | Text _ => false end.

Definition idOf (n : Node) : option string :=
  match n with Element _ attrs _ => attrs !! "id" | Text _ => None end.

(** The node and everything below it, in tree order. *)
Fixpoint inclusiveDescendants (n : Node) : list Node :=
  n :: match n with
       | Element _ _ kids => flat_map inclusiveDescendants kids
       | Text _ => []
       end.

(** Some element of the tree carries the identifier [id]. *)
Definition containsId (id : string) (n : Node) : bool :=
  existsb (fun e => bool_decide (idOf e = Some id)) (inclusiveDescendants n).

(** Apply [f] to the node at [p]; a path that leads nowhere changes
    nothing. *)
Fixpoint alterAt (p : Path) (f : Node -> Node) (n : Node) : Node :=
  match p with
  | [] => f n
  | i :: p' =>
      match n with
      | Element t a kids => Element t a (alter (alterAt p' f) i kids)
      | Text _ => n
      end
  end.

(** [parent.appendChild(child)] for each of [new], in order. *)
Definition appendChildren (new : list Node) (n : Node) : Node :=
  match n with
  | Element t a kids => Element t a (kids ++ new)
  | Text _ => n
  end.

(** The node is an element with one of the given tag names.  Tag names
    are kept in lower case, as the HTML parser leaves them. *)
Definition hasTag (names : list string) (n : Node) : bool :=
  match n with
  | Element t _ _ => bool_decide (t ∈ names)
  | Text _ => false
  end.

(** A node by itself: its tag and attributes, or its text, without its
    children. *)
Definition shallow (n : Node) : Node :=
  match n with
  | Element t a _ => Element t a []
  | Text s => Text s
  end.

(** [document.body]: the first [body] or [frameset] child of the [html]
    document element. *)
Definition body (d : Node) : option Path :=
  match d with
  | Element t _ kids =>
      if bool_decide (t = "html")
      then (fun hit => [hit.1])
             <$> list_find (fun k => hasTag ["body"; "frameset"] k = true) kids
      else None
  | Text _ => None
  end.

(** An HTML document as a browser holds it: the document element is
    [html], it has a [body], and no other element is called [html]. *)
Definition isHTMLDocument (d : Node) : bool :=
  match d with
  | Element t _ kids =>
      bool_decide (t = "html")
      && existsb (hasTag ["body"]) kids
      && forallb (fun k => forallb (fun e => negb (hasTag ["html"] e))
                                   (inclusiveDescendants k)) kids
  | Text _ => false
  end.

End DOM.

(* ================================================================== *)
(** ** React elements and their rendering *)
(* ================================================================== *)

Module React.

(** The props object of an element.  Every prop the entry point passes
    is a string literal. *)
Abbreviation Props := (gmap string string).

(** What a component returns and what [root.render] takes.  As in the
    JSX runtime, the element of a function component holds the function
    itself, next to the name it is bound to. *)
Inductive ReactNode : Type :=
| TextNode (s : string)
| Fragment (children : list ReactNode)
| HostElement (tag : string) (props : Props) (children : list ReactNode)
| ComponentElement (name : string) (body : Props -> ReactNode)
                   (props : Props).

(** The tree with the component bodies forgotten: tags, names, props
    and order only. *)
Inductive Shape : Type :=
| SText (s : string)
| SFragment (children : list Shape)
| SHost (tag : string) (props : Props) (children : list Shape)
| SComponent (name : string) (props : Props).

Fixpoint shape (n : ReactNode) : Shape :=
  match n with
  | TextNode s => SText s
  | Fragment kids => SFragment (map shape kids)
  | HostElement tag props kids => SHost tag props (map shape kids)
  | ComponentElement name _ props => SComponent name props
  end.

(** The component elements written in a tree, in document order, each
    with the props it is given.  No component is called. *)
Fixpoint components (n : ReactNode) : list (string * Props) :=
  match n with
  | TextNode _ => []
  | Fragment kids => flat_map components kids
  | HostElement _ _ kids => flat_map components kids
  | ComponentElement name _ props => [(name, props)]
  end.

(** The host tags written in a tree, in document order. *)
Fixpoint hostTags (n : ReactNode) : list string :=
  match n with
  | TextNode _ => []
  | Fragment kids => flat_map hostTags kids
  | HostElement tag _ kids => tag :: flat_map hostTags kids
  | ComponentElement _ _ _ => []
  end.

(** The component calls React makes when it renders a tree: a parent
    before its output, siblings left to right. *)
Fixpoint invocations (n : ReactNode) : list (string * Props) :=
  match n with
  | TextNode _ => []
  | Fragment kids => flat_map invocations kids
  | HostElement _ _ kids => flat_map invocations kids
  | ComponentElement name body props =>
      (name, props) :: invocations (body props)
  end.

(** React DOM writes the [className] prop as the [class] attribute. *)
Definition hostAttributes (props : Props) : gmap string string :=
  match props !! "className" with
  | Some c => <["class" := c]> (delete "className" props)
  | None => props
  end.

(** The DOM nodes a tree renders to on its first render, each where it
    stands in the tree.  This is how React DOM 19 places the elements of
    an [ordinary] tree, defined below; for other trees (a [title] it moves
    to the document head, say) it is only the tree written as nodes, and
    the statements about documents below are made for ordinary trees. *)
Fixpoint renderToDOM (n : ReactNode) : list DOM.Node :=
  match n with
  | TextNode s => [DOM.Text s]
  | Fragment kids => flat_map renderToDOM kids
  | HostElement tag props kids =>
      [DOM.Element tag (hostAttributes props) (flat_map renderToDOM kids)]
  | ComponentElement _ body props => renderToDOM (body props)
  end.

(** The elements React DOM 19 creates with [document.createElement]
    and leaves where they stand, with nothing particular to them.  Left
    out are the elements it treats on their own: [html], [head] and
    [body], for which it takes the document's own; [title], [meta],
    [link], [style] and [script], which it may move to the document head;
    form controls, media and void elements. *)
Definition inPlaceTags : list string :=
  [ "div"; "span"; "p"; "h1"; "h2"; "h3"; "h4"; "h5"; "h6";
    "header"; "footer"; "main"; "section"; "article"; "nav"; "aside";
    "ul"; "ol"; "li"; "button"; "a"; "strong"; "em"; "small"; "label";
    "code" ].

(** A lower-case letter, a digit or a hyphen. *)
Definition nameChar (c : ascii) : bool :=
  let n := nat_of_ascii c in
  (Nat.leb 97 n && Nat.leb n 122) || (Nat.leb 48 n && Nat.leb n 57)
  || Nat.eqb n 45.

(** Props React DOM writes as attributes of the same name ([className]
    as [class]): a few global attributes and the lower-case [data-] and
    [aria-] ones. *)
Definition plainProp (name : string) : bool :=
  bool_decide (name ∈ [ "className"; "id"; "role"; "title"; "lang"; "dir";
                        "type" ])
  || ((String.prefix "data-" name || String.prefix "aria-" name)
      && forallb nameChar (list_ascii_of_string name)).

(** A tree of ordinary elements: in-place elements with plain props
    only, and no empty text (for which React creates no node).  Component
    elements are looked through. *)
Fixpoint ordinary (n : ReactNode) : bool :=
  match n with
  | TextNode s => negb (bool_decide (s = EmptyString))
  | Fragment kids => forallb ordinary kids
  | HostElement tag props kids =>
      bool_decide (tag ∈ inPlaceTags)
      && forallb plainProp (map fst (map_to_list props))
      && forallb ordinary kids
  | ComponentElement _ body props => ordinary (body props)
  end.

End React.

Import React.

(* ================================================================== *)
(** ** The world the module runs in *)
(* ================================================================== *)

Module Runtime.

(** The object [createRoot] returns: every call makes a new one, told
    apart here by a number; it remembers its container. *)
Record Root : Type := mkRoot { rootId : nat; containerInfo : DOM.Path }.

(** An update handed to React by [root.render] and not yet rendered. *)
Record Update : Type := mkUpdate { target : Root; element : ReactNode }.

Record World : Type := mkWorld {
  document : DOM.Node;        (* the host document *)
  roots : list Root;          (* containers React has taken over *)
  scheduled : list Update     (* work waiting for React's scheduler *)
}.

(** Where, on line 15, an exception is raised. *)
Inductive Origin : Type :=
| InGetElementById
| InNonNullAssertion
| InCreateRoot
| InRender.

(** React DOM: [Target container is not a DOM element.] *)
Inductive Exception : Type :=
| TargetContainerIsNotADOMElement.

(** What an observer of the run can see happen, in order.  A rendered
    tree is recorded by its shape. *)
Inductive Event : Type :=
| EvImport (names : list string) (source : string)
| EvGetElementById (id : string) (found : option DOM.Path)
| EvCreateRoot (container : option DOM.Path)
| EvRender (root : Root) (children : Shape)
| EvInvoke (name : string) (props : Props)
| EvCommit (container : DOM.Path).

Inductive Outcome (A : Type) : Type :=
| Returned (a : A)
| Thrown (origin : Origin) (e : Exception).
Arguments Returned {A} a.
Arguments Thrown {A} origin e.

Record Result (A : Type) : Type := mkResult {
  outcome : Outcome A;
  after : World;
  calls : list Event
}.
Arguments mkResult {A} outcome after calls.
Arguments outcome {A} r.
Arguments after {A} r.
Arguments calls {A} r.

(** A JavaScript computation: it reads and writes the world, leaves a
    trace, and returns or throws.  What was done before a throw stays
    done. *)
Definition M (A : Type) : Type := World -> Result A.

Definition ret {A} (a : A) : M A :=
  fun w => mkResult (Returned a) w [].

Definition throw {A} (o : Origin) (e : Exception) : M A :=
  fun w => mkResult (Thrown o e) w [].

Definition bind {A B} (m : M A) (k : A -> M B) : M B :=
  fun w =>
    let r := m w in
    match outcome r with
    | Returned a =>
        let r' := k a (after r) in
        mkResult (outcome r') (after r') (calls r ++ calls r')
    | Thrown o e => mkResult (Thrown o e) (after r) (calls r)
    end.

Definition emit (e : Event) : M unit :=
  fun w => mkResult (Returned tt) w [e].

Definition get : M World :=
  fun w => mkResult (Returned w) w [].

Definition put (w : World) : M unit :=
  fun _ => mkResult (Returned tt) w [].

Declare Scope js_scope.
Delimit Scope js_scope with js.
Notation "'let*' x ':=' m 'in' k" := (bind m (fun x => k))
  (at level 10, x name, m at level 100, k at level 200) : js_scope.
Notation "m ';;' k" := (bind m (fun _ => k))
  (at level 100, k at level 200, right associativity) : js_scope.
Open Scope js_scope.

(** An [import] declaration: the named module is loaded before the body
    of the importing module runs.  What loading does (a bundler decides
    how a stylesheet reaches the page) is outside this file. *)
Definition import_ (names : list string) (source : string) : M unit :=
  emit (EvImport names source).

(** [document.getElementById(id)] *)
Definition getElementById (id : string) : M (option DOM.Path) :=
  let* w := get in
  let found := DOM.getElementById id (document w) in
  emit (EvGetElementById id found);;
  ret found.

(** TypeScript's postfix [!].  It changes the static type only and is
    erased by the compiler: at run time the operand passes through. *)
Definition nonNull {A} (v : A) : M A := ret v.

(** React DOM's [isValidContainer]: a node, and an element. *)
Definition isValidContainer (d : DOM.Node) (c : option DOM.Path) : bool :=
  match c with
  | None => false
  | Some p =>
      match DOM.nodeAt p d with
      | Some n => DOM.isElement n
      | None => false
      end
  end.

(** [createRoot(container)]: the first thing it does is to throw unless
    the container is valid; otherwise it marks the container and returns
    a root for it.  A container that already has a root gets a second
    one (React only warns in development). *)
Definition createRoot (container : option DOM.Path) : M Root :=
  emit (EvCreateRoot container);;
  let* w := get in
  match container with
  | Some p =>
      if isValidContainer (document w) container then
        let root := mkRoot (length (roots w)) p in
        put (mkWorld (document w) (roots w ++ [root]) (scheduled w));;
        ret root
      else throw InCreateRoot TargetContainerIsNotADOMElement
  | None => throw InCreateRoot TargetContainerIsNotADOMElement
  end.

(** [root.render(children)] hands the tree to React and returns; React
    renders it when its scheduler next runs. *)
Definition render (root : Root) (children : ReactNode) : M unit :=
  emit (EvRender root (shape children));;
  let* w := get in
  put (mkWorld (document w) (roots w)
               (scheduled w ++ [mkUpdate root children])).

(** Lower case, for ASCII letters. *)
Definition lowerChar (c : ascii) : ascii :=
  let n := Ascii.nat_of_ascii c in
  if (65 <=? n) && (n <=? 90) then Ascii.ascii_of_nat (n + 32) else c.

Fixpoint lower (s : string) : string :=
  match s with
  | EmptyString => EmptyString
  | String c s' => String (lowerChar c) (lower s')
  end.

(** The elements React DOM reuses instead of creating. *)
Definition singletonTags : list string := [ "html"; "head"; "body" ].

(** Children that a sparing clear leaves alone: scripts, styles and
    stylesheet links. *)
Definition retained (k : DOM.Node) : bool :=
  match k with
  | DOM.Element t a _ =>
      bool_decide (t = "script") || bool_decide (t = "style")
      || (bool_decide (t = "link")
          && bool_decide (lower (default EmptyString (a !! "rel"))
                          = "stylesheet"))
  | DOM.Text _ => false
  end.

(** React DOM's [clearContainerSparingly]: among the children, [html],
    [head] and [body] stay and are cleared in the same way, retained
    children stay as they are, everything else is removed. *)
Fixpoint clearSparingly (n : DOM.Node) : DOM.Node :=
  match n with
  | DOM.Element t a kids =>
      DOM.Element t a
        (flat_map (fun k => if DOM.hasTag singletonTags k
                            then [clearSparingly k]
                            else if retained k then [k] else []) kids)
  | DOM.Text s => DOM.Text s
  end.

(** React DOM's [clearContainer], run before a root's first render is
    attached: an ordinary container loses all its children
    ([textContent = '']); [html], [head] and [body] are cleared
    sparingly. *)
Definition clearContainer (n : DOM.Node) : DOM.Node :=
  match n with
  | DOM.Element t a kids =>
      if bool_decide (t ∈ singletonTags) then clearSparingly n
      else DOM.Element t a []
  | DOM.Text _ => n
  end.

(** Where [appendChildToContainer] puts the top nodes of the tree: in
    the container, or in [document.body] when the container is an [html]
    element. *)
Definition mountParent (d : DOM.Node) (p : DOM.Path) : option DOM.Path :=
  match DOM.nodeAt p d with
  | Some (DOM.Element t _ _) =>
      if bool_decide (t = "html") then DOM.body d else Some p
  | _ => None
  end.

(** What a sparing clear makes of one child. *)
Definition spare (k : DOM.Node) : list DOM.Node :=
  if DOM.hasTag singletonTags k then [clearSparingly k]
  else if retained k then [k] else [].

(** What a sparing clear can leave behind. *)
Definition spared (k : DOM.Node) : bool :=
  DOM.hasTag singletonTags k || retained k.

(** What a first render does to its container [x], seen from the
    container, when the mount parent lies in it: clear, then append to the
    container or, in an [html] container, to its body. *)
Definition mountInto (new : list DOM.Node) (x : DOM.Node) : DOM.Node :=
  let x1 := clearContainer x in
  if DOM.hasTag [ "html" ] x1 then
    match DOM.body x1 with
    | Some q => DOM.alterAt q (DOM.appendChildren new) x1
    | None => x1
    end
  else DOM.appendChildren new x1.

(** The commit of a root's first render: the container is cleared and
    the nodes the tree renders to are appended to the mount parent.
    (Without a mount parent, an [html] container in a document that has no
    body, the append fails inside React and the document stays as
    cleared.)  This describes trees of ordinary elements, see
    [React.ordinary]. *)
Definition commit (d : DOM.Node) (u : Update) : DOM.Node :=
  let p := containerInfo (target u) in
  let d1 := DOM.alterAt p clearContainer d in
  match mountParent d1 p with
  | Some q => DOM.alterAt q (DOM.appendChildren (renderToDOM (element u))) d1
  | None => d1
  end.

Definition workOf (u : Update) : list Event :=
  map (fun c => EvInvoke c.1 c.2) (invocations (element u))
    ++ [EvCommit (containerInfo (target u))].

(** React's scheduler runs: every pending update is rendered and
    committed, oldest first.  Every update in this development is the
    first render of a new root. *)
Definition performWork : M unit :=
  fun w =>
    mkResult (Returned tt)
             (mkWorld (foldl commit (document w) (scheduled w))
                      (roots w) [])
             (flat_map workOf (scheduled w)).

(** Run [m], then let the scheduler run until nothing is pending; this
    also happens when [m] threw. *)
Definition untilIdle {A} (m : M A) : M A :=
  fun w =>
    let r := m w in
    let r' := performWork (after r) in
    mkResult (outcome r) (after r') (calls r ++ calls r').

(** A page that has just been loaded: no React root yet. *)
Definition pageLoad (d : DOM.Node) : World := mkWorld d [] [].

Definition isCreateRoot (e : Event) : bool :=
  match e with EvCreateRoot _ => true | _ => false end.
Definition isRender (e : Event) : bool :=
  match e with EvRender _ _ => true | _ => false end.
Definition isInvoke (e : Event) : bool :=
  match e with EvInvoke _ _ => true | _ => false end.
Definition isCommit (e : Event) : bool :=
  match e with EvCommit _ => true | _ => false end.
Definition isImport (e : Event) : bool :=
  match e with EvImport _ _ => true | _ => false end.

Definition count (f : Event -> bool) (t : list Event) : nat :=
  length (filter (fun e => f e = true) t).

(** The names a trace shows imported from the module [source]. *)
Definition importedFrom (source : string) (t : list Event) : list string :=
  flat_map (fun e => match e with
                     | EvImport names s =>
                         if bool_decide (s = source) then names else []
                     | _ => []
                     end) t.

End Runtime.

Import Runtime.

(* ================================================================== *)
(** ** [main.tsx] *)
(* ================================================================== *)

Section Main.

(** [import { Header, Counter } from "@repo/ui";] *)
Variables Header Counter : Props -> ReactNode.

(** Lines 6 to 13. *)
Definition App : Props -> ReactNode := fun _ =>
  HostElement "div" {[ "className" := "flex flex-col p-4" ]}
    [ ComponentElement "Header" Header {[ "title" := "Web" ]};
      HostElement "div" {[ "className" := "card" ]}
        [ ComponentElement "Counter" Counter ∅ ] ].

(** The element [<App />]: it holds the component and an empty props
    object; building it calls nothing. *)
Definition appElement : ReactNode := ComponentElement "App" App ∅.

(** Line 15: [createRoot(document.getElementById("app")!).render(<App />);]
    The callee [createRoot(...)] is evaluated, and called, before the
    argument [<App />] of [render] is built. *)
Definition mount : M unit :=
  let* el := getElementById "app" in
  let* container := nonNull el in
  let* root := createRoot container in
  render root appElement.

(** The module: its imports, in order, then its body. *)
Definition main : M unit :=
  import_ ["createRoot"] "react-dom/client";;
  import_ [] "./assets/css/style.css";;
  import_ ["Header"; "Counter"] "@repo/ui";;
  mount.

End Main.

(** What loading the module's three imports looks like to an observer. *)
Definition importEvents : list Event :=
  [ EvImport ["createRoot"] "react-dom/client";
    EvImport [] "./assets/css/style.css";
    EvImport ["Header"; "Counter"] "@repo/ui" ].

(* ================================================================== *)
(** ** The body of [App] as written *)
(* ================================================================== *)

Module JSX.

(** What an attribute, a text or a test can be in a function component:
    a string literal, a field of the props, or a value of the
    environment. *)
Inductive Value : Type :=
| Literal (s : string)
| FromProps (key : string)
| FromGlobal (name : string).

(** JSX expressions: host elements, component elements, text, and the
    conditional [test ? yes : no]. *)
Inductive Expr : Type :=
| Tag (tag : string) (attrs : list (string * Value)) (children : list Expr)
| Use (component : string) (attrs : list (string * Value))
| Str (v : Value)
| Cond (test : Value) (yes no : Expr).

(** The environment an expression is evaluated in: what the component
    names are bound to, and the global values. *)
Record Env : Type := mkEnv {
  binding : string -> Props -> ReactNode;
  global : string -> option string
}.

Definition valueOf (env : Env) (props : Props) (v : Value) : option string :=
  match v with
  | Literal s => Some s
  | FromProps k => props !! k
  | FromGlobal g => global env g
  end.

(** The props object built from the attributes; an attribute whose value
    is undefined is left out. *)
Definition propsOf (env : Env) (props : Props) (attrs : list (string * Value))
  : Props :=
  list_to_map (omap (fun kv => pair kv.1 <$> valueOf env props kv.2) attrs).

Fixpoint eval (env : Env) (props : Props) (e : Expr) : ReactNode :=
  match e with
  | Tag tag attrs kids =>
      HostElement tag (propsOf env props attrs) (map (eval env props) kids)
  | Use c attrs => ComponentElement c (binding env c) (propsOf env props attrs)
  | Str v => TextNode (default EmptyString (valueOf env props v))
  | Cond test yes no =>
      match valueOf env props test with
      | Some s =>
          if bool_decide (s = EmptyString) then eval env props no
          else eval env props yes
      | None => eval env props no
      end
  end.

Definition isLiteral (v : Value) : bool :=
  match v with Literal _ => true | _ => false end.

(** The number of conditionals in an expression. *)
Fixpoint branches (e : Expr) : nat :=
  match e with
  | Tag _ _ kids => foldr (fun k n => branches k + n) 0 kids
  | Use _ _ => 0
  | Str _ => 0
  | Cond _ yes no => S (branches yes + branches no)
  end.

(** The props fields and global values an expression reads. *)
Fixpoint reads (e : Expr) : list Value :=
  match e with
  | Tag _ attrs kids =>
      filter (fun v => isLiteral v = false) (map snd attrs)
        ++ flat_map reads kids
  | Use _ attrs => filter (fun v => isLiteral v = false) (map snd attrs)
  | Str v => filter (fun v => isLiteral v = false) [v]
  | Cond test yes no => test :: reads yes ++ reads no
  end.

(** Lines 7 to 12 of [main.tsx]. *)
Definition App_body : Expr :=
  Tag "div" [ ("className", Literal "flex flex-col p-4") ]
    [ Use "Header" [ ("title", Literal "Web") ];
      Tag "div" [ ("className", Literal "card") ]
        [ Use "Counter" [] ] ].

End JSX.

(* ================================================================== *)
(** ** The text of [main.tsx] *)
(* ================================================================== *)

Module Source.

(** A string literal of the file, between its double quotes. *)
Definition lit (s : string) : string :=
  String "034"%char (s +:+ String "034"%char EmptyString).

(** The fifteen lines, as they stand in the file. *)
Definition main_tsx : list string := [
  "// import React from " +:+ lit "react" +:+ ";";
  "import { createRoot } from " +:+ lit "react-dom/client" +:+ ";";
  "import " +:+ lit "./assets/css/style.css" +:+ ";";
  "import { Header, Counter } from " +:+ lit "@repo/ui" +:+ ";";
  EmptyString;
  "const App = () => (";
  "  <div className=" +:+ lit "flex flex-col p-4" +:+ ">";
  "    <Header title=" +:+ lit "Web" +:+ " />";
  "    <div className=" +:+ lit "card" +:+ ">";
  "      <Counter />";
  "    </div>";
  "  </div>";
  ");";
  EmptyString;
  "createRoot(document.getElementById(" +:+ lit "app" +:+ ")!).render(<App />);"
].

(** The string literals of a line, left to right: [cur] is the literal
    being read, if the scan is inside one. *)
Fixpoint literalsFrom (cur : option string) (s : string) : list string :=
  match s with
  | EmptyString => []
  | String c s' =>
      if bool_decide (c = "034"%char) then
        match cur with
        | None => literalsFrom (Some EmptyString) s'
        | Some l => l :: literalsFrom None s'
        end
      else
        match cur with
        | None => literalsFrom None s'
        | Some l => literalsFrom (Some (l +:+ String c EmptyString)) s'
        end
  end.

Definition literals (s : string) : list string := literalsFrom None s.

Definition isImportLine (s : string) : bool := String.prefix "import " s.

(** The module specifiers of the import declarations, in order. *)
Definition importedModules (lines : list string) : list string :=
  flat_map literals (filter (fun l => isImportLine l = true) lines).

(** The names between the braces of an import declaration. *)
Definition isNameChar (c : ascii) : bool :=
  let n := Ascii.nat_of_ascii c in
  ((65 <=? n) && (n <=? 90)) || ((97 <=? n) && (n <=? 122))
  || ((48 <=? n) && (n <=? 57)) || (n =? 95) || (n =? 36).

Fixpoint namesFrom (inside : bool) (cur : string) (s : string) : list string :=
  match s with
  | EmptyString => []
  | String c s' =>
      if bool_decide (c = "{"%char) then namesFrom true EmptyString s'
      else if bool_decide (c = "}"%char) then
        (if inside && negb (bool_decide (cur = EmptyString)) then [cur] else [])
      else if inside then
        if isNameChar c then namesFrom true (cur +:+ String c EmptyString) s'
        else (if bool_decide (cur = EmptyString) then [] else [cur])
               ++ namesFrom true EmptyString s'
      else namesFrom false EmptyString s'
  end.

Definition importedNames (line : string) : list string :=
  namesFrom false EmptyString line.

End Source.

(* ================================================================== *)
(** ** Sample pages and components *)
(* ================================================================== *)

Module Samples.

(** [index.html] with the mount point in its body. *)
Definition page : DOM.Node :=
  DOM.Element "html" ∅
    [ DOM.Element "head" ∅ [ DOM.Element "title" ∅ [ DOM.Text "Prompted" ] ];
      DOM.Element "body" ∅
        [ DOM.Text "loading";
          DOM.Element "div" {[ "id" := "app" ]} [ DOM.Text "placeholder" ] ] ].

(** The same page without the mount point. *)
Definition pageWithoutApp : DOM.Node :=
  DOM.Element "html" ∅
    [ DOM.Element "head" ∅ [ DOM.Element "title" ∅ [ DOM.Text "Prompted" ] ];
      DOM.Element "body" ∅
        [ DOM.Text "loading";
          DOM.Element "div" {[ "id" := "root" ]} [ DOM.Text "placeholder" ] ] ].

(** What the page looks like once the application is mounted with the
    sample components below. *)
Definition mountedPage : DOM.Node :=
  DOM.Element "html" ∅
    [ DOM.Element "head" ∅ [ DOM.Element "title" ∅ [ DOM.Text "Prompted" ] ];
      DOM.Element "body" ∅
        [ DOM.Text "loading";
          DOM.Element "div" {[ "id" := "app" ]}
            [ DOM.Element "div" {[ "class" := "flex flex-col p-4" ]}
                [ DOM.Element "h1" ∅ [ DOM.Text "Web" ];
                  DOM.Element "div" {[ "class" := "card" ]}
                    [ DOM.Element "button" ∅ [ DOM.Text "0" ] ] ] ] ] ].

(** A malformed page on which two elements carry the identifier. *)
Definition pageWithTwoApps : DOM.Node :=
  DOM.Element "html" ∅
    [ DOM.Element "body" ∅
        [ DOM.Element "main" {[ "id" := "app" ]} [];
          DOM.Element "div" {[ "id" := "app" ]} [ DOM.Text "second" ] ] ].

(** A page whose [body] is the mount point and holds a style sheet. *)
Definition pageWithBodyMount : DOM.Node :=
  DOM.Element "html" ∅
    [ DOM.Element "head" ∅ [];
      DOM.Element "body" {[ "id" := "app" ]}
        [ DOM.Element "style" ∅ [ DOM.Text "p { margin: 0 }" ];
          DOM.Element "p" ∅ [ DOM.Text "placeholder" ] ] ].

(** A page whose [html] element is the mount point. *)
Definition pageWithHtmlMount : DOM.Node :=
  DOM.Element "html" {[ "id" := "app" ]}
    [ DOM.Element "head" ∅ [ DOM.Element "title" ∅ [ DOM.Text "Prompted" ] ];
      DOM.Text " ";
      DOM.Element "body" ∅ [ DOM.Element "p" ∅ [ DOM.Text "placeholder" ] ] ].

(** A header that shows its title, and a counter at zero. *)
Definition Header (props : Props) : ReactNode :=
  HostElement "h1" ∅ [ TextNode (default EmptyString (props !! "title")) ].

Definition Counter (_ : Props) : ReactNode :=
  HostElement "button" ∅ [ TextNode "0" ].

End Samples.

(* ================================================================== *)
(** ** Facts about the document *)
(* ================================================================== *)

Section DOMFacts.

Import DOM.

Lemma Node_ind' (P : Node -> Prop) :
  (forall t a kids, Forall P kids -> P (Element t a kids)) ->
  (forall s, P (Text s)) ->
  forall n, P n.
Proof.
  intros HE HT. fix IH 1. intros [t a kids | s]; [ | apply HT ].
  apply HE. induction kids as [ | k kids IHkids ]; constructor; auto.
Qed.

Lemma firstIn_None f l i :
  firstIn f l i = None <-> Forall (fun k => f k = None) l.
Proof.
  revert i. induction l as [ | k l IHl ]; intros i; simpl.
  - split; [ constructor | reflexivity ].
  - destruct (f k) as [ q | ] eqn:Hk.
    + split; [ discriminate | ]. inversion 1; congruence.
    + rewrite IHl. split; [ by constructor | by inversion 1 ].
Qed.

Lemma firstIn_Some f l i q :
  firstIn f l i = Some q ->
  exists j k p, l !! j = Some k /\ f k = Some p /\ q = (i + j) :: p /\
                Forall (fun k' => f k' = None) (take j l).
Proof.
  revert i. induction l as [ | k l IHl ]; intros i; simpl; [ discriminate | ].
  destruct (f k) as [ p | ] eqn:Hk.
  - intros [= <-]. exists 0, k, p. rewrite Nat.add_0_r.
    repeat split; auto.
  - intros H. apply IHl in H as (j & k' & p & Hj & Hk' & -> & Hbefore).
    exists (S j), k', p. repeat split; auto.
    + f_equal. lia.
    + simpl. by constructor.
Qed.

Lemma firstIn_intro f l i j k p :
  l !! j = Some k -> f k = Some p ->
  Forall (fun k' => f k' = None) (take j l) ->
  firstIn f l i = Some ((i + j) :: p).
Proof.
  revert i j. induction l as [ | k0 l IHl ]; intros i j Hj Hk Hbefore.
  - by rewrite lookup_nil in Hj.
  - destruct j as [ | j ]; simpl in *.
    + injection Hj as ->. rewrite Hk. by rewrite Nat.add_0_r.
    + inversion Hbefore as [ | ? ? Hk0 Hrest ]; subst. rewrite Hk0.
      rewrite (IHl (S i) j Hj Hk Hrest). f_equal. f_equal. lia.
Qed.

(** What [getElementById] returns is an element, and it has the
    identifier. *)
Lemma getElementById_sound id n p :
  getElementById id n = Some p ->
  exists t a kids, nodeAt p n = Some (Element t a kids) /\ a !! "id" = Some id.
Proof.
  revert p. induction n as [ t a kids IH | s ] using Node_ind'; intros p; simpl;
    [ | discriminate ].
  destruct (decide (a !! "id" = Some id)) as [ Hid | Hid ].
  - intros [= <-]. by exists t, a, kids.
  - intros H. apply firstIn_Some in H as (j & k & q & Hj & Hk & -> & _).
    simpl. rewrite Hj. simpl.
    rewrite Forall_lookup in IH. by apply (IH j k Hj).
Qed.

(** [getElementById] misses exactly when no element has the identifier. *)
Lemma getElementById_None id n :
  getElementById id n = None <-> containsId id n = false.
Proof.
  unfold containsId.
  induction n as [ t a kids IH | s ] using Node_ind'; simpl.
  - destruct (decide (a !! "id" = Some id)) as [ Hid | Hid ].
    + rewrite (bool_decide_eq_true_2 _ Hid). simpl. split; discriminate.
    + rewrite (bool_decide_eq_false_2 _ Hid). simpl.
      rewrite firstIn_None.
      induction kids as [ | k kids IHkids ]; simpl.
      * split; [ reflexivity | constructor ].
      * inversion IH as [ | ? ? Hk Hkids ]; subst.
        rewrite existsb_app, orb_false_iff, <- Hk, <- (IHkids Hkids).
        split; [ by inversion 1 | intros []; by constructor ].
  - done.
Qed.

Lemma getElementById_found id n :
  containsId id n = true -> exists p, getElementById id n = Some p.
Proof.
  intros H. destruct (getElementById id n) as [ p | ] eqn:Hp; [ by exists p | ].
  apply getElementById_None in Hp. congruence.
Qed.

Lemma nodeAt_app p q n :
  nodeAt (p ++ q) n = nodeAt p n ≫= nodeAt q.
Proof.
  revert n. induction p as [ | i p IHp ]; intros n; [ done | ]. simpl.
  destruct n as [ t a kids | s ]; [ | done ].
  destruct (kids !! i) as [ k | ]; simpl; [ apply IHp | done ].
Qed.

Lemma nodeAt_alterAt p f n x :
  nodeAt p n = Some x -> nodeAt p (alterAt p f n) = Some (f x).
Proof.
  revert n. induction p as [ | i p IHp ]; intros n; simpl.
  - by intros [= ->].
  - destruct n as [ t a kids | s ]; [ | discriminate ]. simpl.
    destruct (kids !! i) as [ k | ] eqn:Hi; [ | discriminate ]. simpl.
    intros Hk. rewrite list_lookup_alter_eq, Hi. simpl. by apply IHp.
Qed.

Lemma alterAt_alterAt p f g n :
  alterAt p f (alterAt p g n) = alterAt p (fun x => f (g x)) n.
Proof.
  revert n. induction p as [ | i p IHp ]; intros n; [ done | ].
  destruct n as [ t a kids | s ]; [ | done ]. simpl.
  f_equal. rewrite list_alter_alter_eq. apply list_alter_ext; [ | done ].
  intros k _. apply IHp.
Qed.

Lemma alterAt_ext p f g n x :
  nodeAt p n = Some x -> f x = g x -> alterAt p f n = alterAt p g n.
Proof.
  revert n. induction p as [ | i p IHp ]; intros n; simpl.
  - by intros [= ->].
  - destruct n as [ t a kids | s ]; [ | done ].
    destruct (kids !! i) as [ k | ] eqn:Hi; [ | discriminate ]. simpl.
    intros Hk Hfg. f_equal. apply list_alter_ext; [ | done ].
    intros k' Hk'. rewrite Hi in Hk'. injection Hk' as <-. by apply IHp.
Qed.

(** Changing what is below the element that [getElementById] finds does
    not change which element it finds. *)
Lemma getElementById_alterAt id n p f :
  getElementById id n = Some p ->
  (forall x, shallow (f x) = shallow x) ->
  getElementById id (alterAt p f n) = Some p.
Proof.
  intros Hp Hf. revert p Hp.
  induction n as [ t a kids IH | s ] using Node_ind'; intros p; simpl;
    [ | discriminate ].
  destruct (decide (a !! "id" = Some id)) as [ Hid | Hid ].
  - intros [= <-]. simpl. specialize (Hf (Element t a kids)).
    destruct (f (Element t a kids)) as [ t' a' kids' | s ]; [ | discriminate ].
    injection Hf as -> ->. simpl. by rewrite decide_True.
  - intros H. apply firstIn_Some in H as (j & k & q & Hj & Hk & -> & Hbefore).
    simpl. rewrite decide_False by done.
    apply (firstIn_intro _ _ 0 j (alterAt q f k) q).
    + by rewrite list_lookup_alter_eq, Hj.
    + rewrite Forall_lookup in IH. by apply (IH j k Hj).
    + rewrite take_alter_ge by lia. done.
Qed.

Lemma nodeAt_descendant p n e :
  nodeAt p n = Some e -> e ∈ inclusiveDescendants n.
Proof.
  revert n. induction p as [ | i p IHp ]; intros n; simpl.
  - intros [= ->]. destruct e; left.
  - destruct n as [ t a kids | s ]; [ | discriminate ].
    destruct (kids !! i) as [ k | ] eqn:Hi; [ | discriminate ]. simpl.
    intros Hk. right. apply list_elem_of_In, in_flat_map. exists k. split.
    + apply list_elem_of_In. by apply list_elem_of_lookup_2 with i.
    + apply list_elem_of_In. by apply IHp.
Qed.

(** In an HTML document only the document element is called [html]. *)
Lemma html_is_document_element d p t a kids :
  isHTMLDocument d = true ->
  nodeAt p d = Some (Element t a kids) -> t = "html" -> p = [].
Proof.
  intros Hdoc Hp ->. destruct p as [ | i p ]; [ done | ]. exfalso.
  destruct d as [ t' a' kids' | s ]; [ | done ]. simpl in *.
  apply andb_true_iff in Hdoc as [ _ Hno ].
  destruct (kids' !! i) as [ k | ] eqn:Hi; [ | discriminate ]. simpl in Hp.
  rewrite forallb_forall in Hno.
  assert (Hk : In k kids').
  { apply list_elem_of_In. by apply list_elem_of_lookup_2 with i. }
  specialize (Hno k Hk). rewrite forallb_forall in Hno.
  apply nodeAt_descendant, list_elem_of_In in Hp.
  specialize (Hno _ Hp). vm_compute in Hno. discriminate.
Qed.

End DOMFacts.

(* ================================================================== *)
(** ** Facts about clearing and mounting *)
(* ================================================================== *)

Section MountFacts.

Import DOM.

Lemma clearSparingly_eq t a kids :
  clearSparingly (Element t a kids) = Element t a (flat_map spare kids).
Proof. reflexivity. Qed.

Lemma hasTag_clearSparingly names n :
  hasTag names (clearSparingly n) = hasTag names n.
Proof. by destruct n. Qed.

Lemma retained_clearSparingly n : retained (clearSparingly n) = retained n.
Proof. by destruct n. Qed.

Lemma shallow_clearSparingly n : shallow (clearSparingly n) = shallow n.
Proof. by destruct n. Qed.

Lemma shallow_clearContainer n : shallow (clearContainer n) = shallow n.
Proof.
  destruct n as [ t a kids | s ]; [ | done ]. unfold clearContainer.
  by case_bool_decide.
Qed.

Lemma shallow_appendChildren new n : shallow (appendChildren new n) = shallow n.
Proof. by destruct n. Qed.

Lemma shallow_alterAt_below i q f n : shallow (alterAt (i :: q) f n) = shallow n.
Proof. by destruct n. Qed.

Lemma flat_map_fixed {A} (f : A -> list A) (l : list A) :
  Forall (fun k => f k = [k]) l -> flat_map f l = l.
Proof.
  induction 1 as [ | k l Hk _ IH ]; [ done | ]. simpl. by rewrite Hk, IH.
Qed.

Lemma flat_map_nothing {A B} (f : A -> list B) (l : list A) :
  Forall (fun k => f k = []) l -> flat_map f l = [].
Proof.
  induction 1 as [ | k l Hk _ IH ]; [ done | ]. simpl. by rewrite Hk, IH.
Qed.

(** A second sparing clear finds nothing more to remove. *)
Lemma clearSparingly_idem n : clearSparingly (clearSparingly n) = clearSparingly n.
Proof.
  induction n as [ t a kids IH | s ] using Node_ind'; [ | done ].
  rewrite !clearSparingly_eq. f_equal.
  induction kids as [ | k kids IHkids ]; [ done | ].
  inversion IH as [ | ? ? Hk Hkids ]; subst.
  cbn [flat_map]. rewrite flat_map_app, (IHkids Hkids). f_equal.
  destruct (hasTag singletonTags k) eqn:Hs;
    [ | destruct (retained k) eqn:Hr ].
  - replace (spare k) with [clearSparingly k] by (unfold spare; by rewrite Hs).
    cbn [flat_map]. unfold spare.
    by rewrite hasTag_clearSparingly, Hs, Hk, app_nil_r.
  - replace (spare k) with [k] by (unfold spare; by rewrite Hs, Hr).
    cbn [flat_map]. unfold spare. by rewrite Hs, Hr, app_nil_r.
  - replace (spare k) with (@nil Node) by (unfold spare; by rewrite Hs, Hr).
    done.
Qed.

Lemma spare_spared k : Forall (fun k' => spared k' = true) (spare k).
Proof.
  unfold spare, spared. destruct (hasTag singletonTags k) eqn:Hs.
  - constructor; [ | done ]. by rewrite hasTag_clearSparingly, Hs.
  - destruct (retained k) eqn:Hr; [ | done ].
    constructor; [ | done ]. by rewrite Hr, orb_true_r.
Qed.

Lemma spare_fixed k : Forall (fun k' => spare k' = [k']) (spare k).
Proof.
  destruct (hasTag singletonTags k) eqn:Hs;
    [ | destruct (retained k) eqn:Hr ].
  - replace (spare k) with [clearSparingly k] by (unfold spare; by rewrite Hs).
    constructor; [ | done ]. unfold spare.
    by rewrite hasTag_clearSparingly, Hs, clearSparingly_idem.
  - replace (spare k) with [k] by (unfold spare; by rewrite Hs, Hr).
    constructor; [ | done ]. unfold spare. by rewrite Hs, Hr.
  - replace (spare k) with (@nil Node) by (unfold spare; by rewrite Hs, Hr).
    done.
Qed.

Lemma flat_map_spare_spared kids :
  Forall (fun k => spared k = true) (flat_map spare kids).
Proof.
  induction kids as [ | k kids IH ]; [ done | ]. simpl.
  apply Forall_app. split; [ apply spare_spared | exact IH ].
Qed.

Lemma flat_map_spare_fixed kids :
  Forall (fun k => spare k = [k]) (flat_map spare kids).
Proof.
  induction kids as [ | k kids IH ]; [ done | ]. simpl.
  apply Forall_app. split; [ apply spare_fixed | exact IH ].
Qed.

Lemma spare_not_spared k : spared k = false -> spare k = [].
Proof.
  unfold spared, spare. intros H. apply orb_false_iff in H as [ -> -> ]. done.
Qed.

Lemma list_find_split {A} (P : A -> Prop) `{!forall x, Decision (P x)}
    (l : list A) i x :
  list_find P l = Some (i, x) ->
  exists l1 l2, l = l1 ++ x :: l2 /\ length l1 = i /\
                Forall (fun y => ~ P y) l1 /\ P x.
Proof.
  intros Hf. apply list_find_Some in Hf as (Hi & HP & Hbefore).
  exists (take i l), (drop (S i) l). split; [ by rewrite take_drop_middle | ].
  split; [ apply length_take_le; apply lookup_lt_Some in Hi; lia | ].
  split; [ | done ]. apply Forall_lookup. intros j y Hj.
  apply lookup_take_Some in Hj as [ Hj Hlt ]. by apply (Hbefore j).
Qed.

Lemma list_find_middle {A} (P : A -> Prop) `{!forall x, Decision (P x)}
    (l1 l2 : list A) x :
  Forall (fun y => ~ P y) l1 -> P x ->
  list_find P (l1 ++ x :: l2) = Some (length l1, x).
Proof.
  intros Hl1 HP. apply list_find_Some. split; [ | split; [ done | ] ].
  - by rewrite lookup_app_r, Nat.sub_diag by lia.
  - intros j y Hj Hlt. rewrite lookup_app_l in Hj by done.
    rewrite Forall_lookup in Hl1. by apply (Hl1 j).
Qed.

Lemma alter_middle {A} (f : A -> A) (l1 l2 : list A) x :
  alter f (length l1) (l1 ++ x :: l2) = l1 ++ f x :: l2.
Proof. induction l1 as [ | y l1 IH ]; [ done | ]. csimpl. by f_equal. Qed.

(** The [body] among spared children has the tag [body], and a sparing
    clear leaves it as it is. *)
Lemma spared_body b :
  spared b = true -> hasTag [ "body"; "frameset" ] b = true ->
  spare b = [b] ->
  exists ab kb, b = Element "body" ab kb /\
                Forall (fun k => spared k = true) kb /\
                Forall (fun k => spare k = [k]) kb.
Proof.
  destruct b as [ tb ab kb | s ]; [ | done ].
  unfold spared, spare, hasTag, retained. intros Hsp Htag Hfix.
  apply bool_decide_eq_true in Htag.
  assert (Hb : tb = "body").
  { apply elem_of_cons in Htag as [ -> | Htag ]; [ done | ].
    apply list_elem_of_singleton in Htag as ->. by vm_compute in Hsp. }
  subst tb. exists ab, kb. split; [ done | ].
  change (bool_decide ("body" ∈ singletonTags)) with true in Hfix.
  cbn iota in Hfix. injection Hfix as Hkb.
  split; rewrite <- Hkb;
    [ apply flat_map_spare_spared | apply flat_map_spare_fixed ].
Qed.

(** What mounting makes of an [html] container. *)
Lemma mountInto_html new a old :
  existsb (hasTag [ "body" ]) old = true ->
  exists l1 ab kb l2,
    flat_map spare old = l1 ++ Element "body" ab kb :: l2 /\
    Forall (fun k => spared k = true) kb /\
    body (mountInto new (Element "html" a old)) = Some [length l1] /\
    mountInto new (Element "html" a old) =
      Element "html" a (l1 ++ Element "body" ab (kb ++ new) :: l2).
Proof.
  intros Hbody. set (P := fun k : Node => hasTag [ "body"; "frameset" ] k = true).
  assert (Hfind : is_Some (list_find P (flat_map spare old))).
  { apply existsb_exists in Hbody as (k0 & Hin & Hk0).
    apply (list_find_elem_of P _ (clearSparingly k0)).
    - apply list_elem_of_In, in_flat_map. exists k0. split; [ done | ].
      unfold spare. destruct k0 as [ t0 a0 kids0 | s ]; [ | done ].
      simpl in Hk0. apply bool_decide_eq_true, list_elem_of_singleton in Hk0 as ->.
      left. reflexivity.
    - unfold P. rewrite hasTag_clearSparingly.
      destruct k0 as [ t0 a0 kids0 | s ]; [ | done ].
      simpl in *. apply bool_decide_eq_true, list_elem_of_singleton in Hk0 as ->.
      done. }
  destruct Hfind as [ [ i b ] Hfind ].
  destruct (list_find_split P _ _ _ Hfind) as (l1 & l2 & HK & <- & Hl1 & Hb).
  assert (Hspared := flat_map_spare_spared old).
  assert (Hfixed := flat_map_spare_fixed old).
  rewrite HK in Hspared, Hfixed.
  apply Forall_app in Hspared as [ _ Hspared ].
  apply Forall_app in Hfixed as [ _ Hfixed ].
  apply Forall_cons in Hspared as [ Hsb _ ].
  apply Forall_cons in Hfixed as [ Hfb _ ].
  destruct (spared_body b Hsb Hb Hfb) as (ab & kb & -> & Hkb & _).
  exists l1, ab, kb, l2. split; [ done | ]. split; [ done | ].
  assert (Hmount : mountInto new (Element "html" a old) =
            Element "html" a (l1 ++ Element "body" ab (kb ++ new) :: l2)).
  { unfold mountInto, clearContainer.
    change (bool_decide ("html" ∈ singletonTags)) with true. cbn iota.
    rewrite clearSparingly_eq.
    change (hasTag [ "html" ] (Element "html" a (flat_map spare old))) with true.
    cbn iota. unfold body. change (bool_decide ("html" = "html")) with true.
    cbn iota. fold P. rewrite Hfind. cbn [fmap option_fmap option_map fst].
    cbn [alterAt]. rewrite HK. by rewrite alter_middle. }
  split; [ | exact Hmount ].
  rewrite Hmount. unfold body. change (bool_decide ("html" = "html")) with true.
  cbn iota. fold P. rewrite (list_find_middle P l1 l2); [ done | done | done ].
Qed.

Lemma shallow_mountInto new x : shallow (mountInto new x) = shallow x.
Proof.
  unfold mountInto. destruct (hasTag [ "html" ] (clearContainer x)).
  - destruct (body (clearContainer x)) as [ q | ] eqn:Hq;
      [ | apply shallow_clearContainer ].
    destruct (clearContainer x) as [ t a kids | s ] eqn:Hx; [ | done ].
    unfold body in Hq. case_bool_decide; [ | done ].
    destruct (list_find _ kids) as [ hit | ]; [ | done ]. injection Hq as <-.
    rewrite shallow_alterAt_below, <- Hx. apply shallow_clearContainer.
  - rewrite shallow_appendChildren. apply shallow_clearContainer.
Qed.

(** After mounting a tree whose top nodes a sparing clear removes,
    clearing the container gives what clearing it gave before. *)
Lemma clearContainer_mountInto new x :
  Forall (fun k => spared k = false) new ->
  clearContainer (mountInto new x) = clearContainer x.
Proof.
  intros Hnew. destruct x as [ t a old | s ]; [ | done ].
  assert (Hnone : flat_map spare new = []).
  { apply flat_map_nothing. eapply Forall_impl; [ exact Hnew | ].
    intros k. apply spare_not_spared. }
  destruct (decide (t = "html")) as [ -> | Hhtml ].
  - destruct (existsb (hasTag [ "body" ]) old) eqn:Hbody.
    + destruct (mountInto_html new a old Hbody)
        as (l1 & ab & kb & l2 & HK & Hkb & _ & ->).
      unfold clearContainer.
      change (bool_decide ("html" ∈ singletonTags)) with true. cbn iota.
      rewrite !clearSparingly_eq. f_equal. rewrite HK.
      assert (Hfixed := flat_map_spare_fixed old). rewrite HK in Hfixed.
      apply Forall_app in Hfixed as [ Hl1 Hrest ].
      apply Forall_cons in Hrest as [ Hb Hl2 ].
      rewrite flat_map_app. cbn [flat_map].
      rewrite (flat_map_fixed _ _ Hl1), (flat_map_fixed _ _ Hl2).
      f_equal.
      assert (Hkbfix : flat_map spare kb = kb).
      { unfold spare at 1 in Hb.
        change (hasTag singletonTags (Element "body" ab kb)) with true in Hb.
        cbn iota in Hb. rewrite clearSparingly_eq in Hb. by injection Hb. }
      unfold spare at 1.
      change (hasTag singletonTags (Element "body" ab (kb ++ new))) with true.
      cbn iota. rewrite clearSparingly_eq.
      by rewrite flat_map_app, Hnone, app_nil_r, Hkbfix.
    + unfold mountInto.
      assert (Hno : body (clearContainer (Element "html" a old)) = None).
      { unfold clearContainer.
        change (bool_decide ("html" ∈ singletonTags)) with true. cbn iota.
        rewrite clearSparingly_eq. unfold body.
        change (bool_decide ("html" = "html")) with true. cbn iota.
        destruct (list_find _ (flat_map spare old)) as [ [ i b ] | ] eqn:Hfind;
          [ exfalso | done ].
        apply list_find_Some in Hfind as (Hi & Hb & _).
        assert (Hsb : spared b = true).
        { pose proof (flat_map_spare_spared old) as Hall.
          rewrite Forall_lookup in Hall. apply (Hall i b Hi). }
        assert (Hfb : spare b = [b]).
        { pose proof (flat_map_spare_fixed old) as Hall.
          rewrite Forall_lookup in Hall. apply (Hall i b Hi). }
        destruct (spared_body b Hsb Hb Hfb) as (ab & kb & -> & _ & _).
        apply list_elem_of_lookup_2, list_elem_of_In, in_flat_map in Hi
          as (k0 & Hin & Hk0).
        assert (Hk0body : hasTag [ "body" ] k0 = true).
        { unfold spare in Hk0. destruct (hasTag singletonTags k0) eqn:Hs.
          - destruct Hk0 as [ Hk0 | [] ].
            destruct k0 as [ t0 a0 kids0 | s ]; [ | done ].
            rewrite clearSparingly_eq in Hk0. by injection Hk0 as -> _ _.
          - destruct (retained k0) eqn:Hr; [ | done ].
            destruct Hk0 as [ -> | [] ]. by vm_compute in Hs. }
        assert (Hex : existsb (hasTag [ "body" ]) old = true).
        { apply existsb_exists. by exists k0. }
        congruence. }
      rewrite Hno.
      change (clearContainer (Element "html" a old))
        with (clearSparingly (Element "html" a old)).
      rewrite clearSparingly_eq.
      change (hasTag [ "html" ] (Element "html" a (flat_map spare old)))
        with true.
      cbn iota.
      change (clearContainer (Element "html" a (flat_map spare old)))
        with (clearSparingly (Element "html" a (flat_map spare old))).
      by rewrite <- clearSparingly_eq, clearSparingly_idem.
  - unfold mountInto.
    assert (Hnot : hasTag [ "html" ] (clearContainer (Element t a old)) = false).
    { unfold clearContainer. case_bool_decide; cbn [clearSparingly hasTag];
        apply bool_decide_eq_false; by rewrite list_elem_of_singleton. }
    rewrite Hnot. unfold clearContainer.
    destruct (bool_decide (t ∈ singletonTags)) eqn:Hs.
    + rewrite clearSparingly_eq. cbn [appendChildren]. rewrite Hs.
      rewrite clearSparingly_eq. f_equal.
      by rewrite flat_map_app, Hnone, app_nil_r,
        (flat_map_fixed _ _ (flat_map_spare_fixed old)).
    + cbn [appendChildren]. by rewrite Hs.
Qed.

Lemma mountInto_idem new x :
  Forall (fun k => spared k = false) new ->
  mountInto new (mountInto new x) = mountInto new x.
Proof.
  intros Hnew. unfold mountInto at 1 3.
  by rewrite (clearContainer_mountInto new x Hnew).
Qed.

End MountFacts.

Section CommitFacts.

Import DOM.

Lemma hasTag_shallow names x y :
  shallow y = shallow x -> hasTag names y = hasTag names x.
Proof.
  destruct x as [ t a kids | s ], y as [ t' a' kids' | s' ]; try done.
  by intros [= -> ->].
Qed.

(** A commit works on the container alone, when the mount parent lies in
    it: always, except for an [html] container that is not the document
    element. *)
Lemma commit_at d u x :
  nodeAt (containerInfo (target u)) d = Some x ->
  (hasTag [ "html" ] x = true -> containerInfo (target u) = []) ->
  commit d u =
    alterAt (containerInfo (target u)) (mountInto (renderToDOM (element u))) d.
Proof.
  intros Hx Hroot. unfold commit. cbv zeta.
  set (p := containerInfo (target u)) in *.
  set (new := renderToDOM (element u)).
  pose proof (nodeAt_alterAt p clearContainer d x Hx) as Hx1.
  unfold mountParent. rewrite Hx1.
  assert (Htag : hasTag [ "html" ] (clearContainer x) = hasTag [ "html" ] x)
    by apply hasTag_shallow, shallow_clearContainer.
  destruct (clearContainer x) as [ t a kids | s ] eqn:Hcx.
  - case_bool_decide as Hhtml.
    + subst t. assert (Hp : p = []).
      { apply Hroot. rewrite <- Htag. done. }
      rewrite Hp in *. cbn [alterAt nodeAt] in *. injection Hx as ->.
      unfold mountInto. rewrite Hcx.
      change (hasTag [ "html" ] (Element "html" a kids)) with true. done.
    + rewrite alterAt_alterAt. apply (alterAt_ext _ _ _ _ x Hx).
      unfold mountInto. rewrite Hcx.
      replace (hasTag [ "html" ] (Element t a kids)) with false; [ done | ].
      symmetry. apply bool_decide_eq_false. by rewrite list_elem_of_singleton.
  - apply (alterAt_ext _ _ _ _ x Hx). unfold mountInto. by rewrite Hcx.
Qed.

(** What mounting makes of a container, seen from the container: its
    mount parent ends with the new nodes, after what a sparing clear left
    of the old ones, which is nothing in an ordinary container. *)
Lemma mountInto_parent new t a old :
  (t = "html" -> existsb (hasTag [ "body" ]) old = true) ->
  exists q tq aq kept,
    nodeAt q (mountInto new (Element t a old)) =
      Some (Element tq aq (kept ++ new)) /\
    Forall (fun k => spared k = true) kept /\
    (if bool_decide (t = "html")
     then body (mountInto new (Element t a old)) = Some q
     else q = []) /\
    (bool_decide (t ∈ singletonTags) = false -> kept = []).
Proof.
  intros Hbody. destruct (decide (t = "html")) as [ -> | Hhtml ].
  - destruct (mountInto_html new a old (Hbody eq_refl))
      as (l1 & ab & kb & l2 & HK & Hkb & Hq & Hm).
    exists [length l1], "body", ab, kb. rewrite Hq, Hm. split.
    + cbn [nodeAt]. by rewrite lookup_app_r, Nat.sub_diag by lia.
    + split; [ done | ]. split; [ done | ]. by vm_compute.
  - rewrite (bool_decide_eq_false_2 _ Hhtml).
    assert (Hm : mountInto new (Element t a old) =
                 appendChildren new (clearContainer (Element t a old))).
    { unfold mountInto.
      replace (hasTag [ "html" ] (clearContainer (Element t a old))) with false;
        [ done | ].
      symmetry. unfold clearContainer.
      case_bool_decide; cbn [clearSparingly hasTag];
        apply bool_decide_eq_false; by rewrite list_elem_of_singleton. }
    rewrite Hm. unfold clearContainer.
    destruct (bool_decide (t ∈ singletonTags)) eqn:Hs.
    + rewrite clearSparingly_eq. cbn [appendChildren].
      exists [], t, a, (flat_map spare old). split; [ done | ].
      split; [ apply flat_map_spare_spared | ]. split; done.
    + cbn [appendChildren]. exists [], t, a, []. repeat split; done.
Qed.

(** The first render of a tree on the element at [p] of an HTML document:
    the element keeps its tag and attributes, and the mount parent, the
    element itself or the body of an [html] element, ends with the nodes
    the tree renders to. *)
Lemma commit_populates d u t a old :
  isHTMLDocument d = true ->
  nodeAt (containerInfo (target u)) d = Some (Element t a old) ->
  exists q tq aq kept,
    shallow <$> nodeAt (containerInfo (target u)) (commit d u) =
      Some (Element t a []) /\
    mountParent (commit d u) (containerInfo (target u)) = Some q /\
    nodeAt q (commit d u) =
      Some (Element tq aq (kept ++ renderToDOM (element u))) /\
    Forall (fun k => spared k = true) kept /\
    (bool_decide (t ∈ singletonTags) = false ->
       kept = [] /\ q = containerInfo (target u)).
Proof.
  destruct u as [ [ rid p ] e ]. cbn [containerInfo target element].
  intros Hdoc Hx. set (u := mkUpdate (mkRoot rid p) e).
  set (new := renderToDOM e).
  assert (Hroot : t = "html" -> p = []).
  { intros Ht. by apply (html_is_document_element d p t a old). }
  assert (Hbody : t = "html" -> existsb (hasTag [ "body" ]) old = true).
  { intros Ht. rewrite (Hroot Ht) in Hx. cbn in Hx. injection Hx as ->.
    cbn in Hdoc.
    apply andb_true_iff in Hdoc as [ Hdoc _ ].
    by apply andb_true_iff in Hdoc as [ _ Hdoc ]. }
  assert (Hat : commit d u = alterAt p (mountInto new) d).
  { apply (commit_at d u (Element t a old) Hx). cbn. intros Ht. apply Hroot.
    by apply bool_decide_eq_true, list_elem_of_singleton in Ht. }
  rewrite Hat. clear Hat.
  destruct (mountInto_parent new t a old Hbody)
    as (q & tq & aq & kept & Hq & Hkept & Hwhere & Hplain).
  pose proof (nodeAt_alterAt p (mountInto new) d _ Hx) as Hx'.
  pose proof (shallow_mountInto new (Element t a old)) as Hsh.
  destruct (mountInto new (Element t a old)) as [ t' a' kids' | s ] eqn:Hm;
    [ | done ].
  injection Hsh as Ht' Ha'. subst t' a'.
  destruct (decide (t = "html")) as [ Ht | Ht ].
  - rewrite (bool_decide_eq_true_2 _ Ht) in Hwhere.
    exists q, tq, aq, kept. pose proof (Hroot Ht) as ->.
    cbn [alterAt nodeAt] in *. injection Hx as ->. rewrite Hm.
    split; [ done | ]. split.
    { unfold mountParent. cbn [nodeAt]. by rewrite (bool_decide_eq_true_2 _ Ht). }
    split; [ done | ]. split; [ done | ].
    intros Hs. subst t. by vm_compute in Hs.
  - rewrite (bool_decide_eq_false_2 _ Ht) in Hwhere. subst q.
    cbn [nodeAt] in Hq. injection Hq as Htq Haq Hkids. subst tq aq kids'.
    exists p, t, a, kept. rewrite Hx'. split; [ done | ]. split.
    { unfold mountParent. rewrite Hx'. by rewrite (bool_decide_eq_false_2 _ Ht). }
    split; [ done | ]. split; [ done | ].
    intros Hs. split; [ by apply Hplain | done ].
Qed.

(** The lookup finds the same element after the commit. *)
Lemma getElementById_commit id d u x :
  getElementById id d = Some (containerInfo (target u)) ->
  nodeAt (containerInfo (target u)) d = Some x ->
  (hasTag [ "html" ] x = true -> containerInfo (target u) = []) ->
  getElementById id (commit d u) = Some (containerInfo (target u)).
Proof.
  intros Hp Hx Hroot. rewrite (commit_at d u x Hx Hroot).
  apply getElementById_alterAt; [ done | ]. intros y. apply shallow_mountInto.
Qed.

(** A second first render on the same container, of a tree that renders
    to the same nodes, none of which a sparing clear would keep, leaves
    the document of the first. *)
Lemma commit_again d u u' x :
  containerInfo (target u') = containerInfo (target u) ->
  renderToDOM (element u') = renderToDOM (element u) ->
  nodeAt (containerInfo (target u)) d = Some x ->
  (hasTag [ "html" ] x = true -> containerInfo (target u) = []) ->
  Forall (fun k => spared k = false) (renderToDOM (element u)) ->
  commit (commit d u) u' = commit d u.
Proof.
  intros Hp Hnew Hx Hroot Hnot.
  rewrite (commit_at d u x Hx Hroot).
  set (p := containerInfo (target u)) in *.
  set (new := renderToDOM (element u)) in *.
  pose proof (nodeAt_alterAt p (mountInto new) d x Hx) as Hx'.
  rewrite (commit_at _ u' (mountInto new x)).
  - rewrite Hp, Hnew. fold p new. rewrite alterAt_alterAt.
    apply (alterAt_ext _ _ _ _ x Hx). by apply mountInto_idem.
  - by rewrite Hp.
  - rewrite Hp. rewrite (hasTag_shallow _ x) by apply shallow_mountInto. done.
Qed.

End CommitFacts.

(* ================================================================== *)
(** ** Facts about the run of the module *)
(* ================================================================== *)

Section RunFacts.

Variables Header Counter : Props -> ReactNode.

Lemma isValidContainer_found d p :
  DOM.getElementById "app" d = Some p -> isValidContainer d (Some p) = true.
Proof.
  intros H. apply getElementById_sound in H as (t & a & kids & Hp & _).
  unfold isValidContainer. by rewrite Hp.
Qed.

Lemma bind_returned {A B} (m : M A) (k : A -> M B) w a w' t :
  m w = mkResult (Returned a) w' t ->
  bind m k w =
    mkResult (outcome (k a w')) (after (k a w')) (t ++ calls (k a w')).
Proof. intros Hm. unfold bind. rewrite Hm. reflexivity. Qed.

Lemma bind_thrown {A B} (m : M A) (k : A -> M B) w o e w' t :
  m w = mkResult (Thrown o e) w' t ->
  bind m k w = mkResult (Thrown o e) w' t.
Proof. intros Hm. unfold bind. rewrite Hm. reflexivity. Qed.

Lemma getElementById_run id w :
  getElementById id w =
    mkResult (Returned (DOM.getElementById id (document w))) w
             [ EvGetElementById id (DOM.getElementById id (document w)) ].
Proof. reflexivity. Qed.

Lemma nonNull_run {A} (v : A) w : nonNull v w = mkResult (Returned v) w [].
Proof. reflexivity. Qed.

Lemma createRoot_valid w p :
  isValidContainer (document w) (Some p) = true ->
  createRoot (Some p) w =
    mkResult (Returned (mkRoot (length (roots w)) p))
             (mkWorld (document w) (roots w ++ [mkRoot (length (roots w)) p])
                      (scheduled w))
             [ EvCreateRoot (Some p) ].
Proof.
  intros Hvalid. unfold createRoot.
  rewrite (bind_returned _ _ w tt w [EvCreateRoot (Some p)] eq_refl).
  rewrite (bind_returned _ _ w w w [] eq_refl).
  rewrite Hvalid. reflexivity.
Qed.

Lemma createRoot_null w :
  createRoot None w =
    mkResult (Thrown InCreateRoot TargetContainerIsNotADOMElement) w
             [ EvCreateRoot None ].
Proof. reflexivity. Qed.

Lemma render_run root children w :
  render root children w =
    mkResult (Returned tt)
             (mkWorld (document w) (roots w)
                      (scheduled w ++ [mkUpdate root children]))
             [ EvRender root (shape children) ].
Proof. reflexivity. Qed.

(** The mount when the lookup finds the element. *)
Lemma mount_found w p :
  DOM.getElementById "app" (document w) = Some p ->
  mount Header Counter w =
    mkResult (Returned tt)
      (mkWorld (document w) (roots w ++ [mkRoot (length (roots w)) p])
               (scheduled w
                  ++ [mkUpdate (mkRoot (length (roots w)) p)
                               (appElement Header Counter)]))
      [ EvGetElementById "app" (Some p); EvCreateRoot (Some p);
        EvRender (mkRoot (length (roots w)) p) (SComponent "App" ∅) ].
Proof.
  intros H. pose proof (isValidContainer_found _ _ H) as Hvalid.
  unfold mount.
  rewrite (bind_returned _ _ _ _ _ _ (getElementById_run "app" w)), H.
  rewrite (bind_returned _ _ _ _ _ _ (nonNull_run (Some p) w)).
  rewrite (bind_returned _ _ _ _ _ _ (createRoot_valid w p Hvalid)).
  rewrite render_run. reflexivity.
Qed.

(** The mount when the lookup returns [null]. *)
Lemma mount_missing w :
  DOM.getElementById "app" (document w) = None ->
  mount Header Counter w =
    mkResult (Thrown InCreateRoot TargetContainerIsNotADOMElement) w
      [ EvGetElementById "app" None; EvCreateRoot None ].
Proof.
  intros H. unfold mount.
  rewrite (bind_returned _ _ _ _ _ _ (getElementById_run "app" w)), H.
  rewrite (bind_returned _ _ _ _ _ _ (nonNull_run None w)).
  rewrite (bind_thrown _ _ _ _ _ _ _ (createRoot_null w)).
  reflexivity.
Qed.

Lemma main_mount w :
  main Header Counter w =
    mkResult (outcome (mount Header Counter w)) (after (mount Header Counter w))
      (importEvents ++ calls (mount Header Counter w)).
Proof.
  unfold main, import_, bind, emit, importEvents. simpl.
  destruct (outcome (mount Header Counter w)); reflexivity.
Qed.

Lemma renderToDOM_App props :
  renderToDOM (App Header Counter props) =
    [ DOM.Element "div" {[ "class" := "flex flex-col p-4" ]}
        (renderToDOM (Header {[ "title" := "Web" ]}) ++
         [ DOM.Element "div" {[ "class" := "card" ]}
             (renderToDOM (Counter ∅)) ]) ].
Proof.
  simpl. rewrite !app_nil_r. reflexivity.
Qed.

Lemma invocations_appElement :
  invocations (appElement Header Counter) =
    ("App", ∅) :: ("Header", {[ "title" := "Web" ]})
      :: invocations (Header {[ "title" := "Web" ]})
      ++ ("Counter", ∅) :: invocations (Counter ∅).
Proof.
  simpl. rewrite !app_nil_r. reflexivity.
Qed.

End RunFacts.

Section RunToIdle.

Variables Header Counter : Props -> ReactNode.

Lemma mount_idle_found w p :
  DOM.getElementById "app" (document w) = Some p ->
  scheduled w = [] ->
  untilIdle (mount Header Counter) w =
    mkResult (Returned tt)
      (mkWorld (commit (document w)
                  (mkUpdate (mkRoot (length (roots w)) p)
                            (appElement Header Counter)))
               (roots w ++ [mkRoot (length (roots w)) p]) [])
      ([ EvGetElementById "app" (Some p); EvCreateRoot (Some p);
         EvRender (mkRoot (length (roots w)) p) (SComponent "App" ∅) ]
         ++ map (fun c => EvInvoke c.1 c.2)
                (invocations (appElement Header Counter))
         ++ [EvCommit p]).
Proof.
  intros Hp Hidle. unfold untilIdle. rewrite (mount_found _ _ _ _ Hp).
  unfold performWork. cbn [after outcome calls scheduled document roots].
  rewrite Hidle. cbn [app foldl flat_map]. unfold workOf.
  cbn [target element containerInfo]. by rewrite app_nil_r.
Qed.

Lemma main_idle w :
  untilIdle (main Header Counter) w =
    mkResult (outcome (untilIdle (mount Header Counter) w))
             (after (untilIdle (mount Header Counter) w))
             (importEvents ++ calls (untilIdle (mount Header Counter) w)).
Proof.
  unfold untilIdle. rewrite main_mount. cbn [after outcome calls].
  by rewrite <- app_assoc.
Qed.

Lemma missing_idle w :
  DOM.getElementById "app" (document w) = None ->
  scheduled w = [] ->
  untilIdle (mount Header Counter) w =
    mkResult (Thrown InCreateRoot TargetContainerIsNotADOMElement) w
      [ EvGetElementById "app" None; EvCreateRoot None ].
Proof.
  intros Hp Hidle. unfold untilIdle. rewrite (mount_missing _ _ _ Hp).
  unfold performWork. cbn [after outcome calls]. rewrite Hidle.
  destruct w as [d rs sch]. simpl in *. by subst.
Qed.

Lemma trace_has_call (before after : list Event) (l : list (string * Props))
    name props :
  (name, props) ∈ l ->
  EvInvoke name props
    ∈ importEvents ++ before ++ map (fun c => EvInvoke c.1 c.2) l ++ after.
Proof.
  intros Hin. rewrite !elem_of_app. right. right. left.
  apply (list_elem_of_fmap_2 (fun c : string * Props => EvInvoke c.1 c.2) _ _ Hin).
Qed.

End RunToIdle.


(* ================================================================== *)
(** ** Facts about the whole run and about the body of [App] *)
(* ================================================================== *)

Section WholeRun.

Variables Header Counter : Props -> ReactNode.

Lemma count_app f (l1 l2 : list Event) :
  count f (l1 ++ l2) = count f l1 + count f l2.
Proof. unfold count. by rewrite filter_app, length_app. Qed.

Lemma count_invocations f (l : list (string * Props)) :
  (forall name props, f (EvInvoke name props) = false) ->
  count f (map (fun c => EvInvoke c.1 c.2) l) = 0.
Proof.
  intros Hf. induction l as [ | c l IHl ]; [ done | ].
  unfold count in *. cbn [map]. rewrite filter_cons_False; [ done | ].
  rewrite Hf. discriminate.
Qed.

(** The whole run on a freshly loaded page with the mount point. *)
Lemma main_idle_found d p :
  DOM.getElementById "app" d = Some p ->
  untilIdle (main Header Counter) (pageLoad d) =
    mkResult (Returned tt)
      (mkWorld (commit d (mkUpdate (mkRoot 0 p) (appElement Header Counter)))
               [mkRoot 0 p] [])
      (importEvents
         ++ [ EvGetElementById "app" (Some p); EvCreateRoot (Some p);
              EvRender (mkRoot 0 p) (SComponent "App" ∅) ]
         ++ map (fun c => EvInvoke c.1 c.2)
                (invocations (appElement Header Counter))
         ++ [EvCommit p]).
Proof.
  intros Hp.
  rewrite main_idle, (mount_idle_found Header Counter (pageLoad d) p Hp eq_refl).
  reflexivity.
Qed.

(** The top node of the tree of [<App />] is a [div]: a sparing clear
    removes it. *)
Lemma app_tree_not_spared :
  Forall (fun k => spared k = false) (renderToDOM (appElement Header Counter)).
Proof.
  change (renderToDOM (appElement Header Counter))
    with (renderToDOM (App Header Counter ∅)).
  rewrite renderToDOM_App. by constructor.
Qed.

(** In an HTML document, what the lookup finds can be mounted on. *)
Lemma found_is_mountable d p :
  DOM.isHTMLDocument d = true ->
  DOM.getElementById "app" d = Some p ->
  exists t a old,
    DOM.nodeAt p d = Some (DOM.Element t a old) /\ a !! "id" = Some "app" /\
    (DOM.hasTag [ "html" ] (DOM.Element t a old) = true -> p = []).
Proof.
  intros Hdoc Hp.
  destruct (getElementById_sound _ _ _ Hp) as (t & a & old & Hnode & Hid).
  exists t, a, old. split; [ done | ]. split; [ done | ].
  cbn. intros Ht. apply bool_decide_eq_true, list_elem_of_singleton in Ht.
  by apply (html_is_document_element d p t a old).
Qed.

End WholeRun.

Section JSXFacts.

Import JSX.

Lemma Expr_ind' (P : Expr -> Prop) :
  (forall tag attrs kids, Forall P kids -> P (Tag tag attrs kids)) ->
  (forall c attrs, P (Use c attrs)) ->
  (forall v, P (Str v)) ->
  (forall test yes no, P yes -> P no -> P (Cond test yes no)) ->
  forall e, P e.
Proof.
  intros HT HU HS HC. fix IH 1. intros [ tag attrs kids | c attrs | v | test yes no ].
  - apply HT. induction kids as [ | k kids IHkids ]; constructor; auto.
  - apply HU.
  - apply HS.
  - apply HC; apply IH.
Qed.

Lemma filter_nil_Forall {A} (P : A -> Prop) `{!forall x, Decision (P x)}
    (l : list A) :
  filter P l = [] -> Forall (fun x => ~ P x) l.
Proof.
  induction l as [ | x l IH ]; [ done | ]. rewrite filter_cons.
  case_decide; [ done | ]. intros Hl. constructor; auto.
Qed.

(** Attributes that are all literals give the same props object
    everywhere. *)
Lemma propsOf_literal env env' props props' attrs :
  filter (fun v => isLiteral v = false) (map snd attrs) = [] ->
  propsOf env props attrs = propsOf env' props' attrs.
Proof.
  intros Hlit. apply filter_nil_Forall in Hlit. unfold propsOf. f_equal.
  induction attrs as [ | [ k v ] attrs IH ]; [ done | ].
  cbn [map snd] in Hlit. apply Forall_cons in Hlit as [ Hv Hrest ].
  cbn [omap list_omap fst snd]. rewrite (IH Hrest).
  destruct v as [ s | key | name ]; [ done | | ]; by destruct Hv.
Qed.

(** An expression without conditionals that reads neither props nor
    globals has the same shape in every environment, and is the same tree
    wherever the component names are bound alike. *)
Lemma straight_line e :
  branches e = 0 -> reads e = [] ->
  forall env env' props props',
    shape (eval env props e) = shape (eval env' props' e) /\
    (binding env = binding env' -> eval env props e = eval env' props' e).
Proof.
  induction e as [ tag attrs kids IH | c attrs | v | test yes no _ _ ]
    using Expr_ind'; cbn [branches reads]; intros Hbr Hrd env env' props props'.
  - apply app_eq_nil in Hrd as [ Hattrs Hkids ].
    assert (Hall : Forall (fun k =>
              shape (eval env props k) = shape (eval env' props' k) /\
              (binding env = binding env' ->
               eval env props k = eval env' props' k)) kids).
    { induction kids as [ | k kids IHkids ]; [ done | ].
      inversion IH as [ | ? ? Hk Hrest ]; subst.
      cbn [foldr flat_map] in Hbr, Hkids.
      apply app_eq_nil in Hkids as [ Hk1 Hk2 ].
      constructor; [ apply Hk; [ lia | done ] | ].
      apply IHkids; [ done | lia | done ]. }
    cbn [eval shape]. rewrite (propsOf_literal env env' props props' attrs Hattrs).
    split.
    + f_equal. rewrite !map_map. apply Forall_fmap_ext_1.
      eapply Forall_impl; [ exact Hall | ]. by intros k [ Hk _ ].
    + intros Hbind. f_equal. apply Forall_fmap_ext_1.
      eapply Forall_impl; [ exact Hall | ]. intros k [ _ Hk ]. by apply Hk.
  - cbn [eval shape]. rewrite (propsOf_literal env env' props props' attrs Hrd).
    split; [ done | ]. by intros ->.
  - cbn [eval shape]. destruct v as [ s | key | name ]; [ done | | ];
      by rewrite filter_cons_True in Hrd.
  - discriminate.
Qed.

End JSXFacts.

(* ================================================================== *)
(** ** The properties of the entry point *)
(* ================================================================== *)

Section Properties.

Variables Header Counter : Props -> ReactNode.

(** C1.  On an HTML document that contains an element with identifier
    [app], with a [Header] and a [Counter] that render ordinary elements,
    running the module (and letting React's scheduler run) succeeds and
    populates that element, the one [getElementById] finds.  The element
    keeps its tag and attributes; its mount parent, which is the element
    itself or, when the element is [html], the document body, ends with
    the rendered tree of [<App />]: one [div] holding what [Header] renders
    for the title [Web], followed by the card [div] holding what [Counter]
    renders.  Before it stands only what React spares when it clears the
    container (scripts, styles, stylesheet links and [html], [head],
    [body]); in a container other than [html], [head] and [body] nothing
    does.  Both components are called, [Header] with the title [Web]. *)
Theorem mount_populates_app (d : DOM.Node) :
  DOM.isHTMLDocument d = true ->
  DOM.containsId "app" d = true ->
  ordinary (Header {[ "title" := "Web" ]}) = true ->
  ordinary (Counter ∅) = true ->
  exists p t a old q tq aq kept,
    DOM.getElementById "app" d = Some p /\
    DOM.nodeAt p d = Some (DOM.Element t a old) /\
    a !! "id" = Some "app" /\
    let r := untilIdle (main Header Counter) (pageLoad d) in
    let d' := document (after r) in
    outcome r = Returned tt /\
    DOM.shallow <$> DOM.nodeAt p d' = Some (DOM.Element t a []) /\
    mountParent d' p = Some q /\
    DOM.nodeAt q d' =
      Some (DOM.Element tq aq
              (kept ++
               [ DOM.Element "div" {[ "class" := "flex flex-col p-4" ]}
                  (renderToDOM (Header {[ "title" := "Web" ]}) ++
                   [ DOM.Element "div" {[ "class" := "card" ]}
                       (renderToDOM (Counter ∅)) ]) ])) /\
    Forall (fun k => spared k = true) kept /\
    (bool_decide (t ∈ singletonTags) = false -> kept = [] /\ q = p) /\
    EvInvoke "Header" {[ "title" := "Web" ]} ∈ calls r /\
    EvInvoke "Counter" ∅ ∈ calls r /\
    scheduled (after r) = [].
Proof.
  intros Hdoc Hhas _ _. apply getElementById_found in Hhas as [p Hp].
  destruct (getElementById_sound _ _ _ Hp) as (t & a & old & Hnode & Hid).
  set (u := mkUpdate (mkRoot 0 p) (appElement Header Counter)).
  destruct (commit_populates d u t a old Hdoc Hnode)
    as (q & tq & aq & kept & Hshallow & Hparent & Hq & Hkept & Hplain).
  exists p, t, a, old, q, tq, aq, kept.
  split; [ done | ]. split; [ done | ]. split; [ done | ]. cbn zeta.
  rewrite (main_idle_found Header Counter d p Hp).
  cbn [outcome after calls document scheduled]. fold u.
  split; [ done | ]. split; [ exact Hshallow | ]. split; [ exact Hparent | ].
  split.
  { rewrite Hq. cbn [element u].
    change (renderToDOM (appElement Header Counter))
      with (renderToDOM (App Header Counter ∅)).
    by rewrite renderToDOM_App. }
  split; [ exact Hkept | ]. split; [ exact Hplain | ].
  split; [ | split; [ | done ] ].
  - rewrite invocations_appElement. apply trace_has_call. rewrite elem_of_cons.
    right. by left.
  - rewrite invocations_appElement. apply trace_has_call.
    rewrite !elem_of_cons, elem_of_app, elem_of_cons. do 2 right. right. by left.
Qed.

(** C2 (amended).  On a host document without an element with
    identifier [app] the module fails at start-up: the lookup returns
    [null], the non-null assertion returns it unchanged and does nothing
    else, [createRoot] is called with [null] and raises the exception for a container that is not a DOM
    element.  That call is the last thing the module does; the exception
    leaves the module uncaught; [createRoot] was called once and [render]
    never; the world is left as it was found, so no work is pending, and
    when React's scheduler runs afterwards nothing happens any more: the
    mount is not tried again. *)
Theorem missing_app_fails_in_createRoot (w : World) :
  DOM.containsId "app" (document w) = false ->
  let r := main Header Counter w in
  let idle := mkWorld (document w) (roots w) [] in
  outcome r = Thrown InCreateRoot TargetContainerIsNotADOMElement /\
  (forall (v : option DOM.Path) (w' : World),
     nonNull v w' = mkResult (Returned v) w' []) /\
  calls r =
    importEvents ++ [ EvGetElementById "app" None; EvCreateRoot None ] /\
  last (calls r) = Some (EvCreateRoot None) /\
  count isCreateRoot (calls r) = 1 /\
  count isRender (calls r) = 0 /\
  after r = w /\
  calls (untilIdle (main Header Counter) idle) =
    calls (main Header Counter idle) /\
  count isCreateRoot (calls (untilIdle (main Header Counter) idle)) = 1.
Proof.
  intros Hmissing. apply getElementById_None in Hmissing.
  cbn zeta. rewrite main_idle, !main_mount.
  rewrite (missing_idle Header Counter (mkWorld (document w) (roots w) []))
    by done.
  rewrite (mount_missing Header Counter _ Hmissing).
  rewrite (mount_missing Header Counter (mkWorld (document w) (roots w) []))
    by done.
  repeat split.
Qed.

(** C3.  On a host document without an element with identifier [app]
    the mount fails before anything is rendered.  Line 15 throws and leaves
    the world it found (document, roots and pending work) untouched; it
    makes no [render] call, no component is called and nothing is
    committed.  The same holds for the whole module, also after React's
    scheduler has run: the document is still the one the page was loaded
    with. *)
Theorem missing_app_nothing_rendered (w : World) :
  DOM.containsId "app" (document w) = false ->
  let r := mount Header Counter w in
  let idle := mkWorld (document w) (roots w) [] in
  let r' := untilIdle (main Header Counter) idle in
  (exists o e, outcome r = Thrown o e) /\
  after r = w /\
  count isRender (calls r) = 0 /\
  count isInvoke (calls r) = 0 /\
  count isCommit (calls r) = 0 /\
  (exists o e, outcome r' = Thrown o e) /\
  after r' = idle /\
  document (after r') = document w /\
  count isRender (calls r') = 0 /\
  count isInvoke (calls r') = 0 /\
  count isCommit (calls r') = 0.
Proof.
  intros Hmissing. apply getElementById_None in Hmissing.
  cbn zeta. rewrite main_idle, (mount_missing _ _ _ Hmissing).
  rewrite (missing_idle Header Counter (mkWorld (document w) (roots w) []))
    by done.
  repeat split; eauto.
Qed.

(** C4.  Mounting again into the same node changes nothing in the
    rendered structure.  On an HTML document with an [app] element, with a
    [Header] and a [Counter] that render ordinary elements, running line 15
    a second time after the first mount has been rendered, or twice in a
    row before React renders, succeeds and leaves the very document one
    mount leaves.  The mount parent then ends with the tree of [<App />],
    and what stands before it is only what React spares when it clears a
    container, which the [div] of [App] is not: the tree is there once. *)
Theorem remount_idempotent (d : DOM.Node) :
  DOM.isHTMLDocument d = true ->
  DOM.containsId "app" d = true ->
  ordinary (Header {[ "title" := "Web" ]}) = true ->
  ordinary (Counter ∅) = true ->
  let once := untilIdle (mount Header Counter) (pageLoad d) in
  let again := untilIdle (mount Header Counter) (after once) in
  let both :=
    untilIdle (mount Header Counter;; mount Header Counter) (pageLoad d) in
  outcome again = Returned tt /\
  outcome both = Returned tt /\
  document (after again) = document (after once) /\
  document (after both) = document (after once) /\
  exists p q tq aq kept,
    DOM.getElementById "app" (document (after again)) = Some p /\
    mountParent (document (after again)) p = Some q /\
    DOM.nodeAt q (document (after again)) =
      Some (DOM.Element tq aq
              (kept ++
               [ DOM.Element "div" {[ "class" := "flex flex-col p-4" ]}
                  (renderToDOM (Header {[ "title" := "Web" ]}) ++
                   [ DOM.Element "div" {[ "class" := "card" ]}
                       (renderToDOM (Counter ∅)) ]) ])) /\
    Forall (fun k => spared k = true) kept /\
    roots (after again) = [ mkRoot 0 p; mkRoot 1 p ].
Proof.
  intros Hdoc Hhas _ _. apply getElementById_found in Hhas as [p Hp].
  destruct (found_is_mountable d p Hdoc Hp)
    as (t & a & old & Hnode & Hid & Hroot).
  set (u0 := mkUpdate (mkRoot 0 p) (appElement Header Counter)).
  set (u1 := mkUpdate (mkRoot 1 p) (appElement Header Counter)).
  assert (Hp' : DOM.getElementById "app" (commit d u0) = Some p).
  { by apply (getElementById_commit "app" d u0 (DOM.Element t a old)). }
  assert (Hagain : commit (commit d u0) u1 = commit d u0).
  { apply (commit_again d u0 u1 (DOM.Element t a old)); try done.
    apply app_tree_not_spared. }
  assert (Honce :
    untilIdle (mount Header Counter) (pageLoad d) =
      mkResult (Returned tt) (mkWorld (commit d u0) [mkRoot 0 p] [])
        ([ EvGetElementById "app" (Some p); EvCreateRoot (Some p);
           EvRender (mkRoot 0 p) (SComponent "App" ∅) ]
           ++ map (fun c => EvInvoke c.1 c.2)
                  (invocations (appElement Header Counter))
           ++ [EvCommit p])).
  { exact (mount_idle_found Header Counter (pageLoad d) p Hp eq_refl). }
  assert (Hsecond :
    untilIdle (mount Header Counter) (mkWorld (commit d u0) [mkRoot 0 p] []) =
      mkResult (Returned tt)
        (mkWorld (commit (commit d u0) u1) [mkRoot 0 p; mkRoot 1 p] [])
        ([ EvGetElementById "app" (Some p); EvCreateRoot (Some p);
           EvRender (mkRoot 1 p) (SComponent "App" ∅) ]
           ++ map (fun c => EvInvoke c.1 c.2)
                  (invocations (appElement Header Counter))
           ++ [EvCommit p])).
  { exact (mount_idle_found Header Counter
             (mkWorld (commit d u0) [mkRoot 0 p] []) p Hp' eq_refl). }
  cbn zeta. rewrite Honce. cbn [after]. rewrite Hsecond.
  cbn [outcome after document roots]. rewrite Hagain.
  assert (Hboth :
    untilIdle (mount Header Counter;; mount Header Counter) (pageLoad d) =
      mkResult (Returned tt)
        (mkWorld (commit (commit d u0) u1) [mkRoot 0 p; mkRoot 1 p] [])
        (([ EvGetElementById "app" (Some p); EvCreateRoot (Some p);
            EvRender (mkRoot 0 p) (SComponent "App" ∅) ]
          ++ [ EvGetElementById "app" (Some p); EvCreateRoot (Some p);
               EvRender (mkRoot 1 p) (SComponent "App" ∅) ])
          ++ flat_map workOf [ u0; u1 ])).
  { assert (Hfirst :
      mount Header Counter (pageLoad d) =
        mkResult (Returned tt) (mkWorld d [mkRoot 0 p] [u0])
          [ EvGetElementById "app" (Some p); EvCreateRoot (Some p);
            EvRender (mkRoot 0 p) (SComponent "App" ∅) ]).
    { exact (mount_found Header Counter (pageLoad d) p Hp). }
    assert (Hnext :
      mount Header Counter (mkWorld d [mkRoot 0 p] [u0]) =
        mkResult (Returned tt)
          (mkWorld d [mkRoot 0 p; mkRoot 1 p] [u0; u1])
          [ EvGetElementById "app" (Some p); EvCreateRoot (Some p);
            EvRender (mkRoot 1 p) (SComponent "App" ∅) ]).
    { exact (mount_found Header Counter (mkWorld d [mkRoot 0 p] [u0]) p Hp). }
    unfold untilIdle. rewrite (bind_returned _ _ _ _ _ _ Hfirst), Hnext.
    reflexivity. }
  rewrite Hboth. cbn [outcome after document]. rewrite Hagain.
  do 4 (split; [ done | ]).
  destruct (commit_populates d u0 t a old Hdoc Hnode)
    as (q & tq & aq & kept & _ & Hparent & Hq & Hkept & _).
  exists p, q, tq, aq, kept. split; [ done | ]. split; [ exact Hparent | ].
  split; [ | done ].
  rewrite Hq. cbn [element u0].
  change (renderToDOM (appElement Header Counter))
    with (renderToDOM (App Header Counter ∅)).
  by rewrite renderToDOM_App.
Qed.

(** C5 (amended).  Evaluating the module performs one mount attempt, in
    one straight run: after its three imports it looks the element up,
    calls [createRoot] with what the lookup returned and, when [createRoot]
    returns, calls [render] on that root; it makes no other call.  So
    [createRoot] is called exactly once and [render] once when the element
    exists and never otherwise.  The [render] call only hands the tree to
    React: when the module has been evaluated no component has been
    called, nothing is committed, the document is unchanged, and the update
    is pending for React's scheduler. *)
Theorem main_mounts_once (w : World) :
  let r := main Header Counter w in
  let found := DOM.getElementById "app" (document w) in
  calls r =
    importEvents
      ++ [ EvGetElementById "app" found; EvCreateRoot found ]
      ++ match found with
         | Some p =>
             [ EvRender (mkRoot (length (roots w)) p) (SComponent "App" ∅) ]
         | None => []
         end /\
  count isCreateRoot (calls r) = 1 /\
  count isRender (calls r) = match found with Some _ => 1 | None => 0 end /\
  count isInvoke (calls r) = 0 /\
  count isCommit (calls r) = 0 /\
  document (after r) = document w /\
  scheduled (after r) =
    scheduled w
      ++ match found with
         | Some p =>
             [ mkUpdate (mkRoot (length (roots w)) p)
                        (appElement Header Counter) ]
         | None => []
         end /\
  outcome r =
    match found with
    | Some _ => Returned tt
    | None => Thrown InCreateRoot TargetContainerIsNotADOMElement
    end.
Proof.
  cbn zeta. rewrite main_mount.
  destruct (DOM.getElementById "app" (document w)) as [ p | ] eqn:Hp.
  - rewrite (mount_found _ _ _ _ Hp). cbn [outcome after calls scheduled document].
    repeat split.
  - rewrite (mount_missing _ _ _ Hp). cbn [outcome after calls].
    rewrite !app_nil_r. repeat split.
Qed.

(** C7.  The only components the tree of [App] names are [Header], given
    the single property [title] with value [Web], and [Counter], given an
    empty props object; and when React renders [<App />] these are the
    props the two components are called with. *)
Theorem component_contract (props : Props) :
  components (App Header Counter props) =
    [ ("Header", {[ "title" := "Web" ]}); ("Counter", ∅) ] /\
  map (fun c => (c.1, map_to_list c.2)) (components (App Header Counter props)) =
    [ ("Header", [("title", "Web")]); ("Counter", []) ] /\
  invocations (appElement Header Counter) =
    ("App", ∅) :: ("Header", {[ "title" := "Web" ]})
      :: invocations (Header {[ "title" := "Web" ]})
      ++ ("Counter", ∅) :: invocations (Counter ∅).
Proof.
  split; [ reflexivity | ]. split; [ | apply invocations_appElement ].
  cbn [components App flat_map app map fst snd].
  by rewrite map_to_list_singleton, map_to_list_empty.
Qed.

(** C9.  The tree of [App] has a fixed shape: a root [div] with class
    name [flex flex-col p-4] whose first child is [Header] with title
    [Web] and whose second and last child is a [div] with class name
    [card] that holds [Counter] alone.  [Header] comes before [Counter]
    in the tree, in the order React calls them and in the DOM it
    produces. *)
Theorem App_shape_and_order (props : Props) :
  App Header Counter props =
    HostElement "div" {[ "className" := "flex flex-col p-4" ]}
      [ ComponentElement "Header" Header {[ "title" := "Web" ]};
        HostElement "div" {[ "className" := "card" ]}
          [ ComponentElement "Counter" Counter ∅ ] ] /\
  shape (App Header Counter props) =
    SHost "div" {[ "className" := "flex flex-col p-4" ]}
      [ SComponent "Header" {[ "title" := "Web" ]};
        SHost "div" {[ "className" := "card" ]} [ SComponent "Counter" ∅ ] ] /\
  map fst (components (App Header Counter props)) = [ "Header"; "Counter" ] /\
  invocations (App Header Counter props) =
    ("Header", {[ "title" := "Web" ]})
      :: invocations (Header {[ "title" := "Web" ]})
      ++ ("Counter", ∅) :: invocations (Counter ∅) /\
  renderToDOM (App Header Counter props) =
    [ DOM.Element "div" {[ "class" := "flex flex-col p-4" ]}
        (renderToDOM (Header {[ "title" := "Web" ]}) ++
         [ DOM.Element "div" {[ "class" := "card" ]}
             (renderToDOM (Counter ∅)) ]) ].
Proof.
  repeat split.
  - cbn. by rewrite !app_nil_r.
  - apply renderToDOM_App.
Qed.

End Properties.

(** C6.  The file is fifteen lines long.  Its import lines name three
    modules, which are the ones the module loads: React DOM's client, a
    stylesheet (imported for its effect, no names) and the shared package
    [@repo/ui], from which it takes exactly [Header] and [Counter].  [App]
    composes those two, and nothing else, into a tree of two [div]s that
    does not depend on its props.  On an HTML document with an [app]
    element, with a [Header] and a [Counter] that render ordinary elements,
    the module hands [<App />] to a root on that element, React calls
    [Header] and [Counter], and the mount parent of the element ends with
    the [div] of [App] holding what [Header] renders and the card [div]
    holding what [Counter] renders. *)
Theorem entry_point_structure (Header Counter : Props -> ReactNode)
    (d : DOM.Node) (props : Props) :
  DOM.isHTMLDocument d = true ->
  DOM.containsId "app" d = true ->
  ordinary (Header {[ "title" := "Web" ]}) = true ->
  ordinary (Counter ∅) = true ->
  let r := untilIdle (main Header Counter) (pageLoad d) in
  length Source.main_tsx = 15 /\
  Source.importedModules Source.main_tsx =
    [ "react-dom/client"; "./assets/css/style.css"; "@repo/ui" ] /\
  filter (fun e => isImport e = true) (calls r) =
    [ EvImport ["createRoot"] "react-dom/client";
      EvImport [] "./assets/css/style.css";
      EvImport ["Header"; "Counter"] "@repo/ui" ] /\
  importedFrom "./assets/css/style.css" (calls r) = [] /\
  importedFrom "@repo/ui" (calls r) = [ "Header"; "Counter" ] /\
  map Source.importedNames
      (filter (fun l => Source.isImportLine l = true) Source.main_tsx) =
    [ ["createRoot"]; []; ["Header"; "Counter"] ] /\
  map fst (components (App Header Counter props)) = [ "Header"; "Counter" ] /\
  hostTags (App Header Counter props) = [ "div"; "div" ] /\
  App Header Counter props = App Header Counter ∅ /\
  outcome r = Returned tt /\
  exists p q tq aq kept,
    DOM.getElementById "app" d = Some p /\
    EvRender (mkRoot 0 p) (SComponent "App" ∅) ∈ calls r /\
    EvInvoke "App" ∅ ∈ calls r /\
    EvInvoke "Header" {[ "title" := "Web" ]} ∈ calls r /\
    EvInvoke "Counter" ∅ ∈ calls r /\
    EvCommit p ∈ calls r /\
    mountParent (document (after r)) p = Some q /\
    DOM.nodeAt q (document (after r)) =
      Some (DOM.Element tq aq
              (kept ++
               [ DOM.Element "div" {[ "class" := "flex flex-col p-4" ]}
                  (renderToDOM (Header {[ "title" := "Web" ]}) ++
                   [ DOM.Element "div" {[ "class" := "card" ]}
                       (renderToDOM (Counter ∅)) ]) ])).
Proof.
  intros Hdoc Hhas _ _. apply getElementById_found in Hhas as [p Hp].
  destruct (getElementById_sound _ _ _ Hp) as (t & a & old & Hnode & Hid).
  set (u := mkUpdate (mkRoot 0 p) (appElement Header Counter)).
  destruct (commit_populates d u t a old Hdoc Hnode)
    as (q & tq & aq & kept & _ & Hparent & Hq & _ & _).
  cbn zeta. rewrite (main_idle_found Header Counter d p Hp).
  cbn [outcome after calls document]. fold u.
  assert (Hquiet : forall l : list (string * Props),
            filter (fun e => isImport e = true)
                   (map (fun c => EvInvoke c.1 c.2) l) = [] /\
            forall s, importedFrom s (map (fun c => EvInvoke c.1 c.2) l) = []).
  { induction l as [ | c l [IH1 IH2] ]; [ done | ]. split; [ exact IH1 | exact IH2 ]. }
  destruct (Hquiet (invocations (appElement Header Counter))) as [Hq1 Hq2].
  split; [ reflexivity | ]. split; [ vm_compute; reflexivity | ].
  split.
  { unfold importEvents. rewrite !filter_app, Hq1. reflexivity. }
  split.
  { unfold importedFrom in *. rewrite !flat_map_app, Hq2. reflexivity. }
  split.
  { unfold importedFrom in *. rewrite !flat_map_app, Hq2. reflexivity. }
  split; [ vm_compute; reflexivity | ].
  do 4 (split; [ reflexivity | ]).
  exists p, q, tq, aq, kept. split; [ done | ].
  split.
  { rewrite !elem_of_app, !elem_of_cons. right. left. do 2 right. by left. }
  split.
  { rewrite invocations_appElement. apply trace_has_call. by left. }
  split.
  { rewrite invocations_appElement. apply trace_has_call. rewrite elem_of_cons.
    right. by left. }
  split.
  { rewrite invocations_appElement. apply trace_has_call.
    rewrite !elem_of_cons, elem_of_app, elem_of_cons. do 2 right. right. by left. }
  split.
  { rewrite !elem_of_app, list_elem_of_singleton. do 3 right. done. }
  split; [ exact Hparent | ].
  rewrite Hq. cbn [element u].
  change (renderToDOM (appElement Header Counter))
    with (renderToDOM (App Header Counter ∅)).
  by rewrite renderToDOM_App.
Qed.

(** C8.  [App] is a constant function without internal branching.  Its
    body as written, lines 7 to 12, has no conditional and reads neither
    its props nor anything of the environment; evaluated in any
    environment and with any props it is the tree that [App] returns for
    what [Header] and [Counter] are bound to there.  So any two calls of
    [App] return the same tree, and any two evaluations, in any two
    environments, return trees of the same shape. *)
Theorem App_constant (Header Counter : Props -> ReactNode) :
  JSX.branches JSX.App_body = 0 /\
  JSX.reads JSX.App_body = [] /\
  (forall env props,
     JSX.eval env props JSX.App_body =
       App (JSX.binding env "Header") (JSX.binding env "Counter") props) /\
  (forall props props', App Header Counter props = App Header Counter props') /\
  (forall env env' props props',
     shape (JSX.eval env props JSX.App_body) =
       shape (JSX.eval env' props' JSX.App_body)) /\
  (forall env env' props props',
     JSX.binding env = JSX.binding env' ->
     JSX.eval env props JSX.App_body = JSX.eval env' props' JSX.App_body) /\
  (forall Header' Counter' props props',
     shape (App Header Counter props) = shape (App Header' Counter' props')).
Proof.
  split; [ reflexivity | ]. split; [ reflexivity | ].
  split; [ intros env props; reflexivity | ].
  split; [ intros props props'; reflexivity | ].
  split.
  { intros env env' props props'.
    by apply (straight_line JSX.App_body eq_refl eq_refl env env' props props'). }
  split.
  { intros env env' props props'.
    by apply (straight_line JSX.App_body eq_refl eq_refl env env' props props'). }
  intros Header' Counter' props props'. reflexivity.
Qed.

(** C10.  The non-null assertion does nothing at run time: whatever the
    lookup returns is what [createRoot] is called with.  On a document
    without an [app] element that value is [null]; [createRoot] receives
    it, and the exception the mount ends with is raised inside
    [createRoot], not by the lookup and not by the assertion. *)
Theorem nonNull_is_erased (Header Counter : Props -> ReactNode) (w : World) :
  DOM.containsId "app" (document w) = false ->
  let r := mount Header Counter w in
  (forall (v : option DOM.Path) (w' : World),
     nonNull v w' = mkResult (Returned v) w' []) /\
  calls (getElementById "app" w) = [ EvGetElementById "app" None ] /\
  outcome (getElementById "app" w) = Returned None /\
  calls r = [ EvGetElementById "app" None; EvCreateRoot None ] /\
  outcome r = Thrown InCreateRoot TargetContainerIsNotADOMElement /\
  (forall o e, outcome r = Thrown o e ->
     o = InCreateRoot /\ o <> InGetElementById /\ o <> InNonNullAssertion).
Proof.
  intros Hmissing. apply getElementById_None in Hmissing.
  cbn zeta. rewrite (mount_missing _ _ _ Hmissing), getElementById_run, Hmissing.
  cbn [outcome calls].
  split; [ intros v w'; reflexivity | ].
  do 4 (split; [ reflexivity | ]).
  intros o e [= <- <-]. repeat split; discriminate.
Qed.


(* ================================================================== *)
(** ** The whole run, in order *)
(* ================================================================== *)

Section WholeRunInOrder.

Variables Header Counter : Props -> ReactNode.

(** X4.  The whole run, in order: the imports, the lookup, [createRoot],
    [render]; then, when React's scheduler runs, the component calls,
    [App] first, then [Header] and what it calls, then [Counter] and what
    it calls; last, one commit into the mount point.  No component is
    called before [render] has returned, and there is exactly one commit. *)
Theorem full_run_in_order (d : DOM.Node) (p : DOM.Path) :
  DOM.getElementById "app" d = Some p ->
  let r := untilIdle (main Header Counter) (pageLoad d) in
  calls r =
    calls (main Header Counter (pageLoad d))
      ++ EvInvoke "App" ∅
      :: EvInvoke "Header" {[ "title" := "Web" ]}
      :: map (fun c => EvInvoke c.1 c.2)
             (invocations (Header {[ "title" := "Web" ]}))
      ++ EvInvoke "Counter" ∅
      :: map (fun c => EvInvoke c.1 c.2) (invocations (Counter ∅))
      ++ [EvCommit p] /\
  count isInvoke (calls (main Header Counter (pageLoad d))) = 0 /\
  count isCommit (calls r) = 1 /\
  count isCreateRoot (calls r) = 1 /\
  count isRender (calls r) = 1 /\
  last (calls r) = Some (EvCommit p).
Proof.
  intros Hp. cbn zeta. rewrite (main_idle_found Header Counter d p Hp).
  rewrite main_mount, (mount_found Header Counter (pageLoad d) p Hp).
  cbn [calls]. rewrite invocations_appElement.
  cbn [map fst snd]. rewrite map_app. cbn [map fst snd].
  split.
  { repeat (rewrite <- ?app_assoc; cbn [app]). reflexivity. }
  split; [ reflexivity | ].
  rewrite !app_assoc, last_snoc, <- !app_assoc.
  rewrite !count_app.
  change (EvInvoke "App" ∅
            :: EvInvoke "Header" {[ "title" := "Web" ]}
            :: map (fun c : string * Props => EvInvoke c.1 c.2)
                   (invocations (Header {[ "title" := "Web" ]}))
            ++ EvInvoke "Counter" ∅
            :: map (fun c : string * Props => EvInvoke c.1 c.2)
                   (invocations (Counter ∅)))
    with ([EvInvoke "App" ∅; EvInvoke "Header" {[ "title" := "Web" ]}]
            ++ map (fun c : string * Props => EvInvoke c.1 c.2)
                   (invocations (Header {[ "title" := "Web" ]}))
            ++ [EvInvoke "Counter" ∅]
            ++ map (fun c : string * Props => EvInvoke c.1 c.2)
                   (invocations (Counter ∅))).
  rewrite !count_app, !count_invocations by done.
  repeat split.
Qed.

End WholeRunInOrder.

(* ================================================================== *)
(** ** The properties on the sample pages *)
(* ================================================================== *)

(** The tree of [<App />] is made of ordinary elements as soon as what
    [Header] and [Counter] render is. *)
Lemma ordinary_appElement (Header Counter : Props -> ReactNode) :
  ordinary (appElement Header Counter) =
    ordinary (Header {[ "title" := "Web" ]}) && ordinary (Counter ∅).
Proof.
  cbn [appElement ordinary App forallb].
  replace (forallb plainProp
             (map fst (map_to_list ({[ "className" := "flex flex-col p-4" ]} : Props))))
    with true by (vm_compute; reflexivity).
  replace (forallb plainProp
             (map fst (map_to_list ({[ "className" := "card" ]} : Props))))
    with true by (vm_compute; reflexivity).
  replace (bool_decide ("div" ∈ inPlaceTags)) with true
    by (vm_compute; reflexivity).
  cbn [andb]. by rewrite !andb_true_r.
Qed.

Example sample_components_ordinary :
  ordinary (appElement Samples.Header Samples.Counter) = true.
Proof. vm_compute. reflexivity. Qed.

Example sample_page_mounted :
  document (after (untilIdle (main Samples.Header Samples.Counter)
                             (pageLoad Samples.page))) = Samples.mountedPage.
Proof. vm_compute. reflexivity. Qed.

Example sample_page_trace :
  calls (untilIdle (main Samples.Header Samples.Counter)
                   (pageLoad Samples.page)) =
    [ EvImport ["createRoot"] "react-dom/client";
      EvImport [] "./assets/css/style.css";
      EvImport ["Header"; "Counter"] "@repo/ui";
      EvGetElementById "app" (Some [1; 1]);
      EvCreateRoot (Some [1; 1]);
      EvRender (mkRoot 0 [1; 1]) (SComponent "App" ∅);
      EvInvoke "App" ∅;
      EvInvoke "Header" {[ "title" := "Web" ]};
      EvInvoke "Counter" ∅;
      EvCommit [1; 1] ].
Proof. vm_compute. reflexivity. Qed.

Example sample_page_remounted :
  let mount' := mount Samples.Header Samples.Counter in
  document (after (untilIdle mount'
                     (after (untilIdle mount' (pageLoad Samples.page))))) =
    Samples.mountedPage.
Proof. vm_compute. reflexivity. Qed.

Example sample_page_without_app :
  main Samples.Header Samples.Counter (pageLoad Samples.pageWithoutApp) =
    mkResult (Thrown InCreateRoot TargetContainerIsNotADOMElement)
             (pageLoad Samples.pageWithoutApp)
             [ EvImport ["createRoot"] "react-dom/client";
               EvImport [] "./assets/css/style.css";
               EvImport ["Header"; "Counter"] "@repo/ui";
               EvGetElementById "app" None;
               EvCreateRoot None ].
Proof. vm_compute. reflexivity. Qed.

(** With two elements of the same identifier the first one, in tree
    order, is the mount point; the other is left alone. *)
Example sample_page_with_two_apps :
  DOM.getElementById "app" Samples.pageWithTwoApps = Some [0; 0] /\
  DOM.nodeAt [0; 1]
    (document (after (untilIdle (main Samples.Header Samples.Counter)
                                (pageLoad Samples.pageWithTwoApps)))) =
    Some (DOM.Element "div" {[ "id" := "app" ]} [ DOM.Text "second" ]).
Proof. split; vm_compute; reflexivity. Qed.

(** When [body] is the mount point its style sheet stays and the
    placeholder goes; the tree comes after the style sheet. *)
Example sample_page_with_body_mount :
  document (after (untilIdle (main Samples.Header Samples.Counter)
                             (pageLoad Samples.pageWithBodyMount))) =
    DOM.Element "html" ∅
      [ DOM.Element "head" ∅ [];
        DOM.Element "body" {[ "id" := "app" ]}
          [ DOM.Element "style" ∅ [ DOM.Text "p { margin: 0 }" ];
            DOM.Element "div" {[ "class" := "flex flex-col p-4" ]}
              [ DOM.Element "h1" ∅ [ DOM.Text "Web" ];
                DOM.Element "div" {[ "class" := "card" ]}
                  [ DOM.Element "button" ∅ [ DOM.Text "0" ] ] ] ] ].
Proof. vm_compute. reflexivity. Qed.

(** When [html] is the mount point, [head] and [body] stay, emptied, and
    the tree goes into [body]. *)
Example sample_page_with_html_mount :
  document (after (untilIdle (main Samples.Header Samples.Counter)
                             (pageLoad Samples.pageWithHtmlMount))) =
    DOM.Element "html" {[ "id" := "app" ]}
      [ DOM.Element "head" ∅ [];
        DOM.Element "body" ∅
          [ DOM.Element "div" {[ "class" := "flex flex-col p-4" ]}
              [ DOM.Element "h1" ∅ [ DOM.Text "Web" ];
                DOM.Element "div" {[ "class" := "card" ]}
                  [ DOM.Element "button" ∅ [ DOM.Text "0" ] ] ] ] ].
Proof. vm_compute. reflexivity. Qed.

Lemma mount_populates_app_witness :
  (DOM.isHTMLDocument Samples.page = true /\
   DOM.containsId "app" Samples.page = true /\
   ordinary (Samples.Header {[ "title" := "Web" ]}) = true /\
   ordinary (Samples.Counter ∅) = true) /\
  exists p t a old q tq aq kept,
    DOM.getElementById "app" Samples.page = Some p /\
    DOM.nodeAt p Samples.page = Some (DOM.Element t a old) /\
    a !! "id" = Some "app" /\
    let r := untilIdle (main Samples.Header Samples.Counter)
        (pageLoad Samples.page) in
    let d' := document (after r) in
    outcome r = Returned tt /\
    DOM.shallow <$> DOM.nodeAt p d' = Some (DOM.Element t a []) /\
    mountParent d' p = Some q /\
    DOM.nodeAt q d' =
      Some (DOM.Element tq aq
              (kept ++
               [ DOM.Element "div" {[ "class" := "flex flex-col p-4" ]}
                  (renderToDOM (Samples.Header {[ "title" := "Web" ]}) ++
                   [ DOM.Element "div" {[ "class" := "card" ]}
                       (renderToDOM (Samples.Counter ∅)) ]) ])) /\
    Forall (fun k => spared k = true) kept /\
    (bool_decide (t ∈ singletonTags) = false -> kept = [] /\ q = p) /\
    EvInvoke "Header" {[ "title" := "Web" ]} ∈ calls r /\
    EvInvoke "Counter" ∅ ∈ calls r /\
    scheduled (after r) = [].
Proof.
  split; [ repeat split; vm_compute; reflexivity | ].
  apply (mount_populates_app Samples.Header Samples.Counter Samples.page);
      vm_compute; reflexivity.
Defined.

(** C2, as the specification words it, fails: on the sample page without
    the mount point the module does throw, but the exception is raised in
    [createRoot]; none is raised by the non-null assertion. *)
Lemma missing_app_error_not_from_assertion :
  DOM.containsId "app" Samples.pageWithoutApp = false /\
  outcome (main Samples.Header Samples.Counter
                (pageLoad Samples.pageWithoutApp)) =
    Thrown InCreateRoot TargetContainerIsNotADOMElement /\
  ~ (exists e,
       outcome (main Samples.Header Samples.Counter
                     (pageLoad Samples.pageWithoutApp)) =
         Thrown InNonNullAssertion e).
Proof.
  split; [ reflexivity | ]. split; [ reflexivity | ].
  intros [e He]. discriminate He.
Qed.

Lemma missing_app_fails_in_createRoot_witness :
  DOM.containsId "app" (document (pageLoad Samples.pageWithoutApp)) = false /\
  let r := main Samples.Header Samples.Counter
      (pageLoad Samples.pageWithoutApp) in
  let idle := mkWorld (document (pageLoad Samples.pageWithoutApp)) (roots
      (pageLoad Samples.pageWithoutApp)) [] in
  outcome r = Thrown InCreateRoot TargetContainerIsNotADOMElement /\
  (forall (v : option DOM.Path) (w' : World),
     nonNull v w' = mkResult (Returned v) w' []) /\
  calls r =
    importEvents ++ [ EvGetElementById "app" None; EvCreateRoot None ] /\
  last (calls r) = Some (EvCreateRoot None) /\
  count isCreateRoot (calls r) = 1 /\
  count isRender (calls r) = 0 /\
  after r = (pageLoad Samples.pageWithoutApp) /\
  calls (untilIdle (main Samples.Header Samples.Counter) idle) =
    calls (main Samples.Header Samples.Counter idle) /\
  count isCreateRoot (calls (untilIdle
      (main Samples.Header Samples.Counter) idle)) = 1.
Proof.
  split; [ vm_compute; reflexivity | ].
  apply (missing_app_fails_in_createRoot Samples.Header Samples.Counter
      (pageLoad Samples.pageWithoutApp)); vm_compute; reflexivity.
Defined.

Lemma missing_app_nothing_rendered_witness :
  DOM.containsId "app" (document (pageLoad Samples.pageWithoutApp)) = false /\
  let w := pageLoad Samples.pageWithoutApp in
  let r := mount Samples.Header Samples.Counter w in
  let idle := mkWorld (document w) (roots w) [] in
  let r' := untilIdle (main Samples.Header Samples.Counter) idle in
  (exists o e, outcome r = Thrown o e) /\
  after r = w /\
  count isRender (calls r) = 0 /\
  count isInvoke (calls r) = 0 /\
  count isCommit (calls r) = 0 /\
  (exists o e, outcome r' = Thrown o e) /\
  after r' = idle /\
  document (after r') = document w /\
  count isRender (calls r') = 0 /\
  count isInvoke (calls r') = 0 /\
  count isCommit (calls r') = 0.
Proof.
  split; [ reflexivity | ].
  apply (missing_app_nothing_rendered Samples.Header Samples.Counter
           (pageLoad Samples.pageWithoutApp)).
  reflexivity.
Defined.

Lemma remount_idempotent_witness :
  (DOM.isHTMLDocument Samples.pageWithBodyMount = true /\
   DOM.containsId "app" Samples.pageWithBodyMount = true /\
   ordinary (Samples.Header {[ "title" := "Web" ]}) = true /\
   ordinary (Samples.Counter ∅) = true) /\
  let once := untilIdle (mount Samples.Header Samples.Counter)
      (pageLoad Samples.pageWithBodyMount) in
  let again := untilIdle (mount Samples.Header Samples.Counter) (after once) in
  let both :=
    untilIdle (mount Samples.Header Samples.Counter;;
        mount Samples.Header Samples.Counter)
            (pageLoad Samples.pageWithBodyMount) in
  outcome again = Returned tt /\
  outcome both = Returned tt /\
  document (after again) = document (after once) /\
  document (after both) = document (after once) /\
  exists p q tq aq kept,
    DOM.getElementById "app" (document (after again)) = Some p /\
    mountParent (document (after again)) p = Some q /\
    DOM.nodeAt q (document (after again)) =
      Some (DOM.Element tq aq
              (kept ++
               [ DOM.Element "div" {[ "class" := "flex flex-col p-4" ]}
                  (renderToDOM (Samples.Header {[ "title" := "Web" ]}) ++
                   [ DOM.Element "div" {[ "class" := "card" ]}
                       (renderToDOM (Samples.Counter ∅)) ]) ])) /\
    Forall (fun k => spared k = true) kept /\
    roots (after again) = [ mkRoot 0 p; mkRoot 1 p ].
Proof.
  split; [ repeat split; vm_compute; reflexivity | ].
  apply
      (remount_idempotent Samples.Header Samples.Counter Samples.pageWithBodyMount); vm_compute; reflexivity.
Defined.

(** C5, as the specification words it, fails.  On the sample page the
    module returns before anything is rendered: no component has been
    called, the document is as it was, and the update is pending; the tree
    is in the document only once React's scheduler has run.  And on the
    sample page without the mount point no [render] call executes. *)
Lemma main_returns_before_rendering :
  let r := main Samples.Header Samples.Counter (pageLoad Samples.page) in
  let later := untilIdle (main Samples.Header Samples.Counter)
                         (pageLoad Samples.page) in
  outcome r = Returned tt /\
  scheduled (after r) =
    [ mkUpdate (mkRoot 0 [1; 1])
               (appElement Samples.Header Samples.Counter) ] /\
  scheduled (after r) <> [] /\
  document (after r) = Samples.page /\
  count isInvoke (calls r) = 0 /\
  count isCommit (calls r) = 0 /\
  document (after later) = Samples.mountedPage /\
  document (after later) <> document (after r) /\
  count isInvoke (calls later) = 3 /\
  count isRender
    (calls (main Samples.Header Samples.Counter
                 (pageLoad Samples.pageWithoutApp))) = 0.
Proof.
  cbn zeta.
  split; [ vm_compute; reflexivity | ].
  split; [ vm_compute; reflexivity | ].
  split; [ vm_compute; discriminate | ].
  split; [ vm_compute; reflexivity | ].
  split; [ vm_compute; reflexivity | ].
  split; [ vm_compute; reflexivity | ].
  split; [ vm_compute; reflexivity | ].
  split; [ | split; vm_compute; reflexivity ].
  intros Heq.
  apply (f_equal (fun n => length <$>
      (DOM.inclusiveDescendants <$> DOM.nodeAt [1; 1] n))) in Heq.
  vm_compute in Heq. discriminate Heq.
Qed.

Lemma entry_point_structure_witness :
  (DOM.isHTMLDocument Samples.page = true /\
   DOM.containsId "app" Samples.page = true /\
   ordinary (Samples.Header {[ "title" := "Web" ]}) = true /\
   ordinary (Samples.Counter ∅) = true) /\
  let r := untilIdle (main Samples.Header Samples.Counter)
      (pageLoad Samples.page) in
  length Source.main_tsx = 15 /\
  Source.importedModules Source.main_tsx =
    [ "react-dom/client"; "./assets/css/style.css"; "@repo/ui" ] /\
  filter (fun e => isImport e = true) (calls r) =
    [ EvImport ["createRoot"] "react-dom/client";
      EvImport [] "./assets/css/style.css";
      EvImport ["Header"; "Counter"] "@repo/ui" ] /\
  importedFrom "./assets/css/style.css" (calls r) = [] /\
  importedFrom "@repo/ui" (calls r) = [ "Header"; "Counter" ] /\
  map Source.importedNames
      (filter (fun l => Source.isImportLine l = true) Source.main_tsx) =
    [ ["createRoot"]; []; ["Header"; "Counter"] ] /\
  map fst (components (App Samples.Header Samples.Counter ∅)) = [ "Header"; "Counter" ] /\
  hostTags (App Samples.Header Samples.Counter ∅) = [ "div"; "div" ] /\
  App Samples.Header Samples.Counter ∅ = App Samples.Header Samples.Counter ∅ /\
  outcome r = Returned tt /\
  exists p q tq aq kept,
    DOM.getElementById "app" Samples.page = Some p /\
    EvRender (mkRoot 0 p) (SComponent "App" ∅) ∈ calls r /\
    EvInvoke "App" ∅ ∈ calls r /\
    EvInvoke "Header" {[ "title" := "Web" ]} ∈ calls r /\
    EvInvoke "Counter" ∅ ∈ calls r /\
    EvCommit p ∈ calls r /\
    mountParent (document (after r)) p = Some q /\
    DOM.nodeAt q (document (after r)) =
      Some (DOM.Element tq aq
              (kept ++
               [ DOM.Element "div" {[ "class" := "flex flex-col p-4" ]}
                  (renderToDOM (Samples.Header {[ "title" := "Web" ]}) ++
                   [ DOM.Element "div" {[ "class" := "card" ]}
                       (renderToDOM (Samples.Counter ∅)) ]) ])).
Proof.
  split; [ repeat split; vm_compute; reflexivity | ].
  apply (entry_point_structure Samples.Header Samples.Counter Samples.page ∅);
      vm_compute; reflexivity.
Defined.

Lemma nonNull_is_erased_witness :
  DOM.containsId "app" (document (pageLoad Samples.pageWithoutApp)) = false /\
  let w := pageLoad Samples.pageWithoutApp in
  let r := mount Samples.Header Samples.Counter w in
  (forall (v : option DOM.Path) (w' : World),
     nonNull v w' = mkResult (Returned v) w' []) /\
  calls (getElementById "app" w) = [ EvGetElementById "app" None ] /\
  outcome (getElementById "app" w) = Returned None /\
  calls r = [ EvGetElementById "app" None; EvCreateRoot None ] /\
  outcome r = Thrown InCreateRoot TargetContainerIsNotADOMElement /\
  (forall o e, outcome r = Thrown o e ->
     o = InCreateRoot /\ o <> InGetElementById /\ o <> InNonNullAssertion).
Proof.
  split; [ reflexivity | ].
  apply (nonNull_is_erased Samples.Header Samples.Counter
           (pageLoad Samples.pageWithoutApp)).
  reflexivity.
Defined.

Lemma full_run_in_order_witness :
  DOM.getElementById "app" Samples.page = Some [1; 1] /\
  let r := untilIdle (main Samples.Header Samples.Counter)
                     (pageLoad Samples.page) in
  calls r =
    calls (main Samples.Header Samples.Counter (pageLoad Samples.page))
      ++ EvInvoke "App" ∅
      :: EvInvoke "Header" {[ "title" := "Web" ]}
      :: map (fun c => EvInvoke c.1 c.2)
             (invocations (Samples.Header {[ "title" := "Web" ]}))
      ++ EvInvoke "Counter" ∅
      :: map (fun c => EvInvoke c.1 c.2) (invocations (Samples.Counter ∅))
      ++ [EvCommit [1; 1]] /\
  count isInvoke
        (calls (main Samples.Header Samples.Counter
            (pageLoad Samples.page))) = 0 /\
  count isCommit (calls r) = 1 /\
  count isCreateRoot (calls r) = 1 /\
  count isRender (calls r) = 1 /\
  last (calls r) = Some (EvCommit [1; 1]).
Proof.
  split; [ reflexivity | ].
  apply (full_run_in_order Samples.Header Samples.Counter Samples.page [1; 1]).
  reflexivity.
Defined.
